(** * plexdrive chunk manager (chunk.go): a shallow embedding and its properties

    The Go source is one file, [chunk.go].  It declares the chunk manager, its
    request and response records, the constructor [NewChunkManager], the
    request entry point [RequestChunk] and the two disk helpers
    [loadChunkFromDisk] and [storeChunkToDisk].

    Conventions of the embedding:
    - Go's [int64] is a [Z] together with an explicit wrap-around ([wrap64]);
      [%] is the truncated remainder [Z.rem] and panics on a zero divisor.
    - [float64(x)] of an integer is the integer it rounds to (53-bit
      significand, ties to even), so [math.Min] on such values is [Z.min].
    - [[]byte] is [list byte]; slicing panics outside [0 <= lo <= hi <= len].
    - The goroutine of [RequestChunk] is a program in a state-and-panic monad
      over a [World]: the chunk directory tree, a clock, the requests the
      download manager has received, and what was sent on the result channel.
    - Every system call takes its outcome from the world and from a record of
      injected [Faults], so the theorems hold whatever the operating system
      answers.
    - The caller is taken to receive every message, so that a send on the
      unbuffered channel completes.
    - [make] panics above the allocation limit of the runtime, taken as on
      linux/amd64; below it memory is taken to suffice.
    - Logging calls have no effect on any of this and are left as comments;
      so is the deferred [f.Close()]. *)

From Stdlib Require Import ZArith Lia List String DecimalString DecimalZ DecimalFacts.
From Stdlib.Strings Require Import Byte.
From stdpp Require Import base option list gmap strings.

Open Scope Z_scope.

(** ** Machine integers *)

Module Int64.

Definition min_int64 : Z := - 2 ^ 63.
Definition max_int64 : Z := 2 ^ 63 - 1.

(** The values an [int64] variable can hold. *)
Definition in_range (z : Z) : Prop := min_int64 ≤ z ≤ max_int64.

(** Two's complement wrap-around of an arithmetic result. *)
Definition wrap64 (z : Z) : Z := (z + 2 ^ 63) mod 2 ^ 64 - 2 ^ 63.

Definition add64 (a b : Z) : Z := wrap64 (a + b).
Definition sub64 (a b : Z) : Z := wrap64 (a - b).

(** [float64(z)]: the integer value of the nearest double, ties to even. *)
Definition float64 (z : Z) : Z :=
  let a := Z.abs z in
  let bits := Z.log2 a + 1 in
  if bits <=? 53 then z
  else
    let sh := bits - 53 in
    let q := Z.shiftr a sh in
    let r := Z.land a (Z.ones sh) in
    let half := Z.shiftl 1 (sh - 1) in
    let q' := if (half <? r) || ((r =? half) && Z.odd q) then q + 1 else q in
    Z.sgn z * Z.shiftl q' sh.

(** [math.Min] on finite doubles. *)
Definition math_Min (x y : Z) : Z := Z.min x y.

(** [int64(x)] of an integer-valued double.  Outside the [int64] range Go
    leaves the result to the implementation; amd64 yields the minimum. *)
Definition int64_of_float (x : Z) : Z :=
  if (min_int64 <=? x) && (x <=? max_int64) then x else min_int64.

End Int64.
Export Int64.

(** ** Results of partial operations *)

Inductive outcome (A : Type) : Type :=
  | Ok (a : A)
  | Panic (msg : string).
Arguments Ok {A} a.
Arguments Panic {A} msg.

(** [len(b)] as an integer. *)
Definition len {A} (b : list A) : Z := Z.of_nat (length b).

(** [b[lo:hi]]; the capacity of [b] is taken to be its length. *)
Definition slice {A} (b : list A) (lo hi : Z) : outcome (list A) :=
  if (0 <=? lo) && (lo <=? hi) && (hi <=? len b)
  then Ok (take (Z.to_nat (hi - lo)) (drop (Z.to_nat lo) b))
  else Panic "slice bounds out of range".

(** The most bytes the runtime allocates at once ([maxAlloc] on
    linux/amd64). *)
Definition max_alloc : Z := 2 ^ 48.

(** [make([]byte, n)]: [n] zero bytes; it panics when [n] is negative or
    above the allocation limit. *)
Definition make_bytes (n : Z) : outcome (list byte) :=
  if (n <? 0) || (max_alloc <? n) then Panic "makeslice: len out of range"
  else Ok (replicate (Z.to_nat n) x00).

(** [strconv.Itoa]. *)
Definition Itoa (z : Z) : string := NilZero.string_of_int (Z.to_int z).

(** ** Data model *)

Inductive fmt_arg : Type :=
  | ArgString (s : string)
  | ArgInt (z : Z).

(** An [error] value built by [fmt.Errorf]: the format and its arguments. *)
Inductive error : Type :=
  | Errorf (format : string) (args : list fmt_arg).

(** [APIObject] is declared in another file; only its [ObjectID] is read. *)
Record APIObject : Type := { ObjectID : string }.

Record ChunkRequest : Type := {
  Object : APIObject;
  Offset : Z;
  Size : Z;
  Preload : bool;
  id : string;
  fOffset : Z;
  offsetStart : Z;
  offsetEnd : Z
}.

Record ChunkResponse : Type := {
  Error : option error;
  Bytes : list byte
}.

(** The download manager is declared in another file.  Here it is any
    deterministic gateway: its answer may depend on the requests it has
    already received and on the request at hand. *)
Definition DownloadManager : Type := list ChunkRequest → ChunkRequest → ChunkResponse.

Record ChunkManager : Type := {
  ChunkPath : string;
  ChunkSize : Z;
  downloadManager : DownloadManager
}.

(** ** The world the goroutine runs in *)

(** A chunk file: its bytes and its modification time. *)
Record File : Type := { data : list byte; mtime : Z }.

(** What travels on the result channel. *)
Inductive event : Type :=
  | Send (r : ChunkResponse)
  | Close.

(** [disk] maps a directory path to its entries, [clock] is what [time.Now]
    reads, [calls] are the requests handed to the download manager so far and
    [chan] is the traffic on the result channel of the current request. *)
Record World : Type := {
  disk : gmap string (gmap string File);
  clock : Z;
  calls : list ChunkRequest;
  chan : list event
}.

Inductive ioerr : Type := EOF | ErrUnexpectedEOF | ErrOther.

(** Failures the operating system may inject into one request. *)
Record Faults : Type := {
  open_err : bool;
  read_err : option Z;
  chtimes_err : bool;
  stat_dir_err : bool;
  mkdir_err : bool;
  stat_file_err : bool;
  write_err : option (option (list byte))
}.

Definition no_faults : Faults :=
  {| open_err := false; read_err := None; chtimes_err := false;
     stat_dir_err := false; mkdir_err := false; stat_file_err := false;
     write_err := None |}.

(** ** The monad: state passing with panics *)

Definition M (A : Type) : Type := World → outcome A * World.

Global Instance M_ret : MRet M := λ A a w, (Ok a, w).
Global Instance M_bind : MBind M := λ A B f c w,
  match c w with
  | (Ok a, w') => f a w'
  | (Panic msg, w') => (Panic msg, w')
  end.

(** A pure step that may panic. *)
Definition lift {A} (o : outcome A) : M A := λ w, (o, w).

(** ** System calls and library calls used by chunk.go *)

(** [time.Now()]: reads the clock, which then advances. *)
Definition time_Now : M Z :=
  λ w, (Ok (clock w),
        {| disk := disk w; clock := clock w + 1; calls := calls w; chan := chan w |}).

(** The entry [name] of directory [dir], if both exist. *)
Definition chunk_file (d : gmap string (gmap string File)) (dir name : string) : option File :=
  d !! dir ≫= λ entries, entries !! name.

(** [os.Open]: yields whether the file could be opened. *)
Definition os_Open (fl : Faults) (dir name : string) : M bool :=
  λ w, (Ok (negb (open_err fl) && bool_decide (is_Some (chunk_file (disk w) dir name))), w).

(** What [f.ReadAt(buf, off)] does on a file holding [content]: the number
    of bytes read, the error and the buffer afterwards.  A read that stops
    short of [len(buf)] reports [io.EOF]; an injected fault stops it earlier
    with another error; a negative offset is refused. *)
Definition read_at (fl : Faults) (content buf : list byte) (off : Z)
  : Z * option ioerr * list byte :=
  if off <? 0 then (0, Some ErrOther, buf)
  else
    let avail := Z.max 0 (len content - off) in
    let full := Z.min (len buf) avail in
    let '(n, err) :=
      match read_err fl with
      | Some k => if k <? full then (Z.max 0 k, Some ErrOther)
                  else (full, if full <? len buf then Some EOF else None)
      | None => (full, if full <? len buf then Some EOF else None)
      end in
    (n, err, take (Z.to_nat n) (drop (Z.to_nat off) content) ++ drop (Z.to_nat n) buf).

(** [f.ReadAt(buf, off)] on the opened chunk file. *)
Definition File_ReadAt (fl : Faults) (dir name : string) (buf : list byte) (off : Z)
  : M (Z * option ioerr * list byte) :=
  λ w,
    match chunk_file (disk w) dir name with
    | None => (Ok (0, Some ErrOther, buf), w)
    | Some f => (Ok (read_at fl (data f) buf off), w)
    end.

(** [os.Chtimes(filename, atime, mtime)]: only the modification time is kept. *)
Definition os_Chtimes (fl : Faults) (dir name : string) (atime mtime' : Z) : M bool :=
  λ w,
    if chtimes_err fl then (Ok false, w)
    else
      match disk w !! dir with
      | Some entries =>
        match entries !! name with
        | Some f =>
          (Ok true,
           {| disk := <[dir := <[name := {| data := data f; mtime := mtime' |}]> entries]> (disk w);
              clock := clock w; calls := calls w; chan := chan w |})
        | None => (Ok false, w)
        end
      | None => (Ok false, w)
      end.

Inductive stat_result : Type := StatOk | StatNotExist | StatError.

(** [os.IsNotExist(err)] for the error of an [os.Stat]. *)
Definition os_IsNotExist (s : stat_result) : bool :=
  match s with StatNotExist => true | _ => false end.

(** [os.Stat] of a directory. *)
Definition os_Stat_dir (fl : Faults) (dir : string) : M stat_result :=
  λ w, (Ok (match disk w !! dir with
            | Some _ => if stat_dir_err fl then StatError else StatOk
            | None => if stat_dir_err fl then StatError else StatNotExist
            end), w).

(** [os.Stat] of a chunk file. *)
Definition os_Stat_file (fl : Faults) (dir name : string) : M stat_result :=
  λ w, (Ok (match chunk_file (disk w) dir name with
            | Some _ => if stat_file_err fl then StatError else StatOk
            | None => if stat_file_err fl then StatError else StatNotExist
            end), w).

(** [os.MkdirAll]: yields whether the directory exists afterwards. *)
Definition os_MkdirAll (fl : Faults) (dir : string) : M bool :=
  λ w,
    if mkdir_err fl then (Ok false, w)
    else
      match disk w !! dir with
      | Some _ => (Ok true, w)
      | None =>
        (Ok true, {| disk := <[dir := ∅]> (disk w);
                     clock := clock w; calls := calls w; chan := chan w |})
      end.

(** [ioutil.WriteFile]: creates or truncates the file and writes [b].  It
    fails when the directory is missing; an injected fault makes it fail
    leaving no file or a file with other content. *)
Definition ioutil_WriteFile (fl : Faults) (dir name : string) (b : list byte) : M bool :=
  λ w,
    match disk w !! dir with
    | None => (Ok false, w)
    | Some entries =>
      let put (c : list byte) :=
        {| disk := <[dir := <[name := {| data := c; mtime := clock w |}]> entries]> (disk w);
           clock := clock w; calls := calls w; chan := chan w |} in
      match write_err fl with
      | None => (Ok true, put b)
      | Some None => (Ok false, w)
      | Some (Some partial) => (Ok false, put partial)
      end
    end.

(** [res <- r] with a consumer that receives. *)
Definition send (r : ChunkResponse) : M unit :=
  λ w, (Ok tt, {| disk := disk w; clock := clock w; calls := calls w;
                  chan := chan w ++ [Send r] |}).

(** [make(chan *ChunkResponse)]: a fresh channel. *)
Definition make_chan (w : World) : World :=
  {| disk := disk w; clock := clock w; calls := calls w; chan := [] |}.

(** [close(res)]. *)
Definition close (w : World) : World :=
  {| disk := disk w; clock := clock w; calls := calls w; chan := chan w ++ [Close] |}.

(** [m.downloadManager.RequestChunk(req)]. *)
Definition DownloadManager_RequestChunk (dm : DownloadManager) (req : ChunkRequest)
  : M ChunkResponse :=
  λ w, (Ok (dm (calls w) req),
        {| disk := disk w; clock := clock w; calls := calls w ++ [req]; chan := chan w |}).

(** ** Sample inputs for the examples *)

(** A path joiner for the examples: the two parts with a slash between. *)
Definition slashJoin (a b : string) : string := a +:+ "/" +:+ b.

(** A request as a caller builds it: the derived fields are still zero. *)
Definition request (object : string) (offset size : Z) : ChunkRequest :=
  {| Object := {| ObjectID := object |}; Offset := offset; Size := size;
     Preload := false; id := EmptyString; fOffset := 0; offsetStart := 0; offsetEnd := 0 |}.

(** A gateway that always answers with the bytes [bs]. *)
Definition gateway_ok (bs : list byte) : DownloadManager :=
  λ _ _, {| Error := None; Bytes := bs |}.

(** A gateway that always fails. *)
Definition gateway_down : DownloadManager :=
  λ _ _, {| Error := Some (Errorf "download failed" []); Bytes := [] |}.

Definition manager (chunkSize : Z) (dm : DownloadManager) : ChunkManager :=
  {| ChunkPath := "/chunks"; ChunkSize := chunkSize; downloadManager := dm |}.

(** Nothing cached, nothing requested yet. *)
Definition empty_world : World :=
  {| disk := ∅; clock := 0; calls := []; chan := [] |}.

(** One chunk file [name] with [content] cached for [object]. *)
Definition cached_world (object name : string) (content : list byte) : World :=
  {| disk := {[ slashJoin "/chunks" object := {[ name := {| data := content; mtime := 0 |} ]} ]};
     clock := 1; calls := []; chan := [] |}.

(** [n] bytes counting up from zero, modulo 256. *)
Definition counting_bytes (n : nat) : list byte :=
  map (λ i, default x00 (Byte.of_nat (i mod 256))) (seq 0 n).

(** The spec's example: chunks of 8192 bytes and an object of 10000 bytes,
    so that its second chunk has 1808; a read of 2000 bytes at 9000. *)
Definition example_manager : ChunkManager :=
  manager 8192 (gateway_ok (counting_bytes 1808)).
Definition example_request : ChunkRequest := request "obj" 9000 2000.

(** A request for as many bytes as an [int64] can name, and a gateway that
    answers with five. *)
Definition huge_request : ChunkRequest := request "obj" 1 max_int64.
Definition five_byte_manager : ChunkManager :=
  manager 4096 (gateway_ok (counting_bytes 5)).

(** An object of 4099 bytes: its last chunk has three bytes and is cached. *)
Definition short_chunk_world : World := cached_world "obj" "4096" [x01; x02; x03].
Definition short_chunk_manager : ChunkManager :=
  manager 4096 (gateway_ok [x01; x02; x03]).

(** A manager whose gateway is down. *)
Definition failing_manager : ChunkManager := manager 4096 gateway_down.

(** A read that breaks off with an I/O error after [k] bytes. *)
Definition read_fault_after (k : Z) : Faults :=
  {| open_err := false; read_err := Some k; chtimes_err := false;
     stat_dir_err := false; mkdir_err := false; stat_file_err := false;
     write_err := None |}.

(** Reads work; touching, creating and writing fail. *)
Definition failing_writes : Faults :=
  {| open_err := false; read_err := None; chtimes_err := true;
     stat_dir_err := false; mkdir_err := true; stat_file_err := false;
     write_err := Some None |}.

(** ** chunk.go *)

Section ChunkGo.

(** [filepath.Join] depends on the platform and is left open. *)
Variable filepath_Join : string → string → string.

(** [NewChunkManager]: the manager and the error, one of them [None]. *)
Definition NewChunkManager (dm : DownloadManager) (chunkPath : string) (chunkSize : Z)
  : option ChunkManager * option error :=
  if String.eqb EmptyString chunkPath then
    (None, Some (Errorf "Path to chunk file must not be empty" []))
  else if chunkSize <? 4096 then
    (None, Some (Errorf "Chunk size must not be < 4096" []))
  else if negb (Z.rem chunkSize 1024 =? 0) then
    (None, Some (Errorf "Chunk size must be divideable by 1024" []))
  else
    (Some {| ChunkPath := chunkPath; ChunkSize := chunkSize; downloadManager := dm |}, None).

(** Lines 66-69: the derived fields written into the request. *)
Definition align (m : ChunkManager) (req : ChunkRequest) : ChunkRequest :=
  let fo := Z.rem (Offset req) (ChunkSize m) in
  let os := sub64 (Offset req) fo in
  let oe := add64 os (ChunkSize m) in
  {| Object := Object req; Offset := Offset req; Size := Size req;
     Preload := Preload req;
     id := ObjectID (Object req) +:+ ":" +:+ Itoa os;
     fOffset := fo; offsetStart := os; offsetEnd := oe |}.

Definition chunkDir (m : ChunkManager) (req : ChunkRequest) : string :=
  filepath_Join (ChunkPath m) (ObjectID (Object req)).

(** [strconv.Itoa(int(req.offsetStart))], with a 64-bit [int]. *)
Definition chunkName (req : ChunkRequest) : string := Itoa (offsetStart req).

Definition filename (m : ChunkManager) (req : ChunkRequest) : string :=
  filepath_Join (chunkDir m req) (chunkName req).

Definition eof_or_nil (err : option ioerr) : bool :=
  match err with
  | None | Some EOF | Some ErrUnexpectedEOF => true
  | Some ErrOther => false
  end.

Definition loadChunkFromDisk (m : ChunkManager) (fl : Faults) (req : ChunkRequest)
  : M ChunkResponse :=
  opened ← os_Open fl (chunkDir m req) (chunkName req);
  if negb opened then
    (* Log.Tracef *)
    mret {| Error := Some (Errorf "Could not open file %v" [ArgString (filename m req)]);
            Bytes := [] |}
  else
    buf ← lift (make_bytes (Size req));
    '(n, err, buf) ← File_ReadAt fl (chunkDir m req) (chunkName req) buf (fOffset req);
    if (0 <? n) && eof_or_nil err then
      (* Log.Tracef *)
      t1 ← time_Now;
      t2 ← time_Now;
      _ ← os_Chtimes fl (chunkDir m req) (chunkName req) t1 t2;
      (* Log.Warningf when Chtimes failed *)
      let eOffset := int64_of_float (math_Min (float64 (Size req)) (float64 (len buf))) in
      b ← lift (slice buf 0 eOffset);
      mret {| Error := None; Bytes := b |}
    else
      (* Log.Tracef *)
      mret {| Error := Some (Errorf "Could not read file %s at %v"
                               [ArgString (filename m req); ArgInt (fOffset req)]);
              Bytes := [] |}.

Definition storeChunkToDisk (m : ChunkManager) (fl : Faults) (req : ChunkRequest)
    (res : ChunkResponse) : M unit :=
  st ← os_Stat_dir fl (chunkDir m req);
  _ ← (if os_IsNotExist st then
         _ ← os_MkdirAll fl (chunkDir m req);
         (* Log.Debugf, Log.Warningf when MkdirAll failed *)
         mret tt
       else mret tt);
  st ← os_Stat_file fl (chunkDir m req) (chunkName req);
  if os_IsNotExist st then
    _ ← ioutil_WriteFile fl (chunkDir m req) (chunkName req) (Bytes res);
    (* Log.Debugf, Log.Warningf when WriteFile failed *)
    mret tt
  else mret tt.

(** The sub-range bounds of lines 81-82 for a reply of [l] bytes. *)
Definition sOffset_of (req : ChunkRequest) (l : Z) : Z :=
  int64_of_float (math_Min (float64 (fOffset req)) (float64 l)).
Definition eOffset_of (req : ChunkRequest) (l : Z) : Z :=
  int64_of_float (math_Min (float64 (add64 (fOffset req) (Size req))) (float64 l)).

(** The body of the goroutine started by [RequestChunk]. *)
Definition goroutine (m : ChunkManager) (fl : Faults) (req : ChunkRequest)
  : M ChunkRequest :=
  (* line 66: [%] by zero panics *)
  if ChunkSize m =? 0 then lift (Panic "integer divide by zero")
  else
    (* lines 66-69 *)
    let req := align m req in
    (* lines 71-76 *)
    diskRes ← loadChunkFromDisk m fl req;
    _ ← (match Error diskRes with
         | Some _ => (* Log.Debugf *) mret tt
         | None => send diskRes
         end);
    (* line 78 *)
    apiRes ← DownloadManager_RequestChunk (downloadManager m) req;
    (* lines 80-90 *)
    _ ← (match Error apiRes with
         | None =>
           let sOffset := sOffset_of req (len (Bytes apiRes)) in
           let eOffset := eOffset_of req (len (Bytes apiRes)) in
           b ← lift (slice (Bytes apiRes) sOffset eOffset);
           _ ← send {| Error := None; Bytes := b |};
           storeChunkToDisk m fl req apiRes
         | Some _ => send apiRes
         end);
    mret req.

(** [RequestChunk]: the world once the goroutine has finished and the caller
    has received every message.  The result is the request as the goroutine
    left it; [close(res)] is deferred, so it also runs after a panic. *)
Definition RequestChunk (m : ChunkManager) (fl : Faults) (req : ChunkRequest)
  : M ChunkRequest :=
  λ w, let '(o, w') := goroutine m fl req (make_chan w) in (o, close w').

(** The messages a consumer receives from a channel. *)
Definition messages (evs : list event) : list ChunkResponse :=
  omap (λ e, match e with Send r => Some r | Close => None end) evs.

(** The bytes on disk, without the modification times. *)
Definition contents (d : gmap string (gmap string File))
  : gmap string (gmap string (list byte)) :=
  (λ entries : gmap string File, data <$> entries) <$> d.

(** Lines 72-76: what the disk step puts on the channel. *)
Definition disk_events (diskRes : ChunkResponse) : list event :=
  match Error diskRes with
  | Some _ => []
  | None => [Send diskRes]
  end.

(** ** Arithmetic of the integer model *)

Section Arithmetic.

Lemma wrap64_in_range z : in_range z → wrap64 z = z.
Proof.
  unfold in_range, wrap64, min_int64, max_int64. intros Hz.
  rewrite Z.mod_small; lia.
Qed.

Lemma wrap64_above z :
  max_int64 < z ≤ max_int64 + 2 ^ 64 → wrap64 z = z - 2 ^ 64.
Proof.
  unfold wrap64, max_int64. intros Hz.
  replace (z + 2 ^ 63) with (z - 2 ^ 63 + 1 * 2 ^ 64) by lia.
  rewrite Z.mod_add by lia. rewrite Z.mod_small; lia.
Qed.

(** Integers of magnitude at most [2 ^ 53] are doubles. *)
Lemma float64_exact z : Z.abs z ≤ 2 ^ 53 → float64 z = z.
Proof.
  intros Hz. unfold float64.
  destruct (Z.leb_spec (Z.log2 (Z.abs z) + 1) 53) as [|Hbits]; [done|].
  assert (Ha : Z.abs z = 2 ^ 53).
  { assert (0 < Z.abs z) by (destruct (Z.abs z) eqn:E; simpl in Hbits; lia).
    pose proof (Z.log2_spec (Z.abs z) ltac:(lia)) as [Hlo _].
    assert (2 ^ 53 ≤ 2 ^ Z.log2 (Z.abs z)) by (apply Z.pow_le_mono_r; lia).
    lia. }
  destruct (Z.abs_spec z) as [[_ E]|[_ E]]; rewrite E in Ha.
  - subst z. reflexivity.
  - replace z with (- 2 ^ 53) by lia. reflexivity.
Qed.

(** Rounding to a double does not fall below the double [2 ^ 53]. *)
Lemma float64_ge z : 2 ^ 53 ≤ z → 2 ^ 53 ≤ float64 z.
Proof.
  intros Hz.
  destruct (Z.eq_dec z (2 ^ 53)) as [->|Hne]; [by rewrite float64_exact|].
  unfold float64. rewrite (Z.abs_eq z) by lia.
  pose proof (Z.log2_spec z ltac:(lia)) as [Hlo Hhi].
  assert (Hlog : 53 ≤ Z.log2 z).
  { change 53 with (Z.log2 (2 ^ 53)). apply Z.log2_le_mono. lia. }
  destruct (Z.leb_spec (Z.log2 z + 1) 53) as [|_]; [lia|].
  set (sh := Z.log2 z + 1 - 53).
  assert (Hsh : 1 ≤ sh) by (unfold sh; lia).
  assert (Hq : 2 ^ 52 ≤ Z.shiftr z sh).
  { rewrite Z.shiftr_div_pow2 by lia.
    apply Z.div_le_lower_bound; [apply Z.pow_pos_nonneg; lia|].
    rewrite <- Z.pow_add_r by lia.
    replace (sh + 52) with (Z.log2 z) by (unfold sh; lia). done. }
  rewrite (Z.sgn_pos z) by lia. rewrite Z.mul_1_l.
  rewrite Z.shiftl_mul_pow2 by lia.
  assert (Hp : 2 ^ 1 ≤ 2 ^ sh) by (apply Z.pow_le_mono_r; lia).
  change (2 ^ 1) with 2 in Hp.
  destruct (_ || _); nia.
Qed.

Lemma int64_of_float_in_range x : in_range x → int64_of_float x = x.
Proof.
  unfold in_range, int64_of_float. intros [H1 H2].
  destruct (Z.leb_spec min_int64 x); [|lia].
  destruct (Z.leb_spec x max_int64); [done|lia].
Qed.

(** [int64(math.Min(float64(x), float64(l)))] is the minimum of [x] and [l]
    when [l] is a length up to [2 ^ 53] and [x] is not negative. *)
Lemma min_via_float64 x l :
  0 ≤ x → 0 ≤ l ≤ 2 ^ 53 →
  int64_of_float (math_Min (float64 x) (float64 l)) = Z.min x l.
Proof.
  intros Hx Hl. unfold math_Min.
  rewrite (float64_exact l) by lia.
  destruct (Z.le_gt_cases x (2 ^ 53)) as [Hs|Hb].
  - rewrite (float64_exact x) by lia.
    apply int64_of_float_in_range. unfold in_range, min_int64, max_int64. lia.
  - pose proof (float64_ge x ltac:(lia)).
    rewrite !Z.min_r by lia.
    apply int64_of_float_in_range. unfold in_range, min_int64, max_int64. lia.
Qed.

End Arithmetic.

(** ** The disk read path *)

Section DiskRead.

Implicit Types (m : ChunkManager) (fl : Faults) (req : ChunkRequest) (w : World).

Lemma contents_touch (d : gmap string (gmap string File)) dir name entries f t :
  d !! dir = Some entries → entries !! name = Some f →
  contents (<[dir := <[name := {| data := data f; mtime := t |}]> entries]> d) = contents d.
Proof.
  intros Hd He. unfold contents. rewrite fmap_insert, fmap_insert. simpl.
  rewrite (insert_id (data <$> entries)) by (by rewrite lookup_fmap, He).
  apply insert_id. by rewrite lookup_fmap, Hd.
Qed.

Lemma chunk_file_touch (d : gmap string (gmap string File)) dir name entries f t dir' name' :
  d !! dir = Some entries → entries !! name = Some f →
  data <$> chunk_file (<[dir := <[name := {| data := data f; mtime := t |}]> entries]> d) dir' name'
  = data <$> chunk_file d dir' name'.
Proof.
  intros Hd He. unfold chunk_file.
  destruct (decide (dir = dir')) as [<-|Hne].
  - rewrite lookup_insert_eq, Hd. simpl.
    destruct (decide (name = name')) as [<-|Hne'].
    + by rewrite lookup_insert_eq, He.
    + by rewrite lookup_insert_ne.
  - by rewrite lookup_insert_ne.
Qed.

Lemma len_nonneg {A} (b : list A) : 0 ≤ len b.
Proof. unfold len. lia. Qed.

Lemma make_bytes_ok n :
  0 ≤ n ≤ max_alloc → make_bytes n = Ok (replicate (Z.to_nat n) x00).
Proof.
  unfold make_bytes. intros Hn.
  destruct (Z.ltb_spec n 0); [lia|]. by destruct (Z.ltb_spec max_alloc n); [lia|].
Qed.

Lemma make_bytes_inv n buf :
  make_bytes n = Ok buf → 0 ≤ n ∧ buf = replicate (Z.to_nat n) x00.
Proof.
  unfold make_bytes. destruct (Z.ltb_spec n 0); [done|].
  destruct (Z.ltb_spec max_alloc n); [done|]. by intros [= <-].
Qed.

(** Sizes that can be allocated are doubles. *)
Lemma max_alloc_exact : max_alloc ≤ 2 ^ 53.
Proof. unfold max_alloc. lia. Qed.

(** A read that counts as a hit got [min(len buf, len content - off)] bytes
    from inside the file. *)
Lemma read_at_hit fl content buf off n err buf' :
  read_at fl content buf off = (n, err, buf') →
  0 < n → eof_or_nil err = true →
  0 ≤ off < len content
  ∧ n = Z.min (len buf) (len content - off)
  ∧ buf' = take (Z.to_nat n) (drop (Z.to_nat off) content) ++ drop (Z.to_nat n) buf.
Proof.
  unfold read_at. intros Hread Hn Herr.
  destruct (Z.ltb_spec off 0) as [|Hoff]; [simplify_eq; lia|].
  destruct (read_err fl) as [k|];
    [destruct (Z.ltb_spec k (Z.min (len buf) (Z.max 0 (len content - off))))|];
    simplify_eq/=; try done; split_and!; try done; lia.
Qed.

(** Reading at or beyond the end of the file, or before its start, yields
    no byte. *)
Lemma read_at_none fl content buf off :
  len content ≤ off ∨ off < 0 → (read_at fl content buf off).1.1 = 0.
Proof.
  unfold read_at. intros Hoff. pose proof (len_nonneg buf).
  destruct (Z.ltb_spec off 0); [done|].
  destruct (read_err fl) as [k|];
    [destruct (Z.ltb_spec k (Z.min (len buf) (Z.max 0 (len content - off))))|];
    simpl; lia.
Qed.

Lemma len_replicate {A} n (x : A) : 0 ≤ n → len (replicate (Z.to_nat n) x) = n.
Proof. unfold len. rewrite length_replicate. lia. Qed.

Ltac run_load :=
  unfold loadChunkFromDisk, os_Open, File_ReadAt, time_Now, os_Chtimes, lift;
  unfold mbind, M_bind, mret, M_ret; simpl.

(** The disk lookup touches neither the channel nor the gateway nor any
    byte on disk. *)
Lemma loadChunkFromDisk_frame m fl req w o w' :
  loadChunkFromDisk m fl req w = (o, w') →
  calls w' = calls w ∧ chan w' = chan w ∧ contents (disk w') = contents (disk w).
Proof.
  run_load. intros H.
  repeat (case_match; simplify_eq/=); try done.
  all: split_and!; try done.
  all: by eapply contents_touch.
Qed.

(** A lookup that reports an error has left the world as it was. *)
Lemma loadChunkFromDisk_miss m fl req w r w' :
  loadChunkFromDisk m fl req w = (Ok r, w') → is_Some (Error r) →
  w' = w ∧ Bytes r = [].
Proof.
  run_load. intros H [e He].
  repeat (case_match; simplify_eq/=); done.
Qed.

Lemma read_buffer_shape (content : list byte) size off z l :
  0 ≤ size → 0 ≤ off → 0 < z → z = Z.min size (len content - off) →
  l = take (Z.to_nat z) (drop (Z.to_nat off) content)
      ++ drop (Z.to_nat z) (replicate (Z.to_nat size) x00) →
  l = take (Z.to_nat z) (drop (Z.to_nat off) content)
      ++ replicate (Z.to_nat (size - z)) x00
  ∧ len l = size.
Proof.
  intros Hsize Hoff Hz Hzeq ->. rewrite drop_replicate.
  replace (Z.to_nat size - Z.to_nat z)%nat with (Z.to_nat (size - z)) by lia.
  split; [done|]. unfold len in *.
  rewrite length_app, length_take, length_drop, length_replicate. lia.
Qed.

(** What a hit returns: the buffer of [Size] bytes, cut at
    [int64(math.Min(float64(Size), float64(len(buf))))]. *)
Lemma loadChunkFromDisk_hit m fl req w r w' :
  loadChunkFromDisk m fl req w = (Ok r, w') → Error r = None →
  ∃ f, chunk_file (disk w) (chunkDir m req) (chunkName req) = Some f
       ∧ 0 ≤ fOffset req < len (data f) ∧ 0 < Size req
       ∧ let n := Z.min (Size req) (len (data f) - fOffset req) in
         let buf := take (Z.to_nat n) (drop (Z.to_nat (fOffset req)) (data f))
                    ++ replicate (Z.to_nat (Size req - n)) x00 in
         slice buf 0 (int64_of_float (math_Min (float64 (Size req)) (float64 (Size req))))
         = Ok (Bytes r).
Proof.
  run_load. intros H He.
  repeat (case_match; simplify_eq/=); try done.
  all: match goal with
       | Hm : make_bytes _ = Ok ?a, Hr : read_at _ _ ?a _ = _,
         Hc : _ && _ = true |- _ =>
         apply make_bytes_inv in Hm as [Hsz ->];
         apply andb_true_iff in Hc as [Hn%Z.ltb_lt Herr];
         destruct (read_at_hit _ _ _ _ _ _ _ Hr Hn Herr) as (Hoff & Hneq & Hbuf);
         rewrite len_replicate in Hneq by done
       end.
  all: eexists; split; [done|].
  all: split; [done|]; split; [lia|]; simpl.
  all: destruct (read_buffer_shape _ _ _ _ _ Hsz (proj1 Hoff) Hn Hneq Hbuf) as [Hl Hlen].
  all: match goal with Hs : slice _ 0 _ = Ok _ |- _ => rewrite Hlen, Hl, Hneq in Hs end.
  all: done.
Qed.

Lemma slice_ok {A} (b : list A) lo hi :
  0 ≤ lo → lo ≤ hi → hi ≤ len b →
  slice b lo hi = Ok (take (Z.to_nat (hi - lo)) (drop (Z.to_nat lo) b))
  ∧ len (take (Z.to_nat (hi - lo)) (drop (Z.to_nat lo) b)) = hi - lo.
Proof.
  intros H1 H2 H3. unfold slice.
  destruct (Z.leb_spec 0 lo); [|lia]. destruct (Z.leb_spec lo hi); [|lia].
  destruct (Z.leb_spec hi (len b)); [|lia]. split; [done|].
  unfold len in *. rewrite length_take, length_drop. lia.
Qed.

Lemma slice_inv {A} (b c : list A) lo hi :
  slice b lo hi = Ok c →
  0 ≤ lo ∧ lo ≤ hi ∧ hi ≤ len b ∧ c = take (Z.to_nat (hi - lo)) (drop (Z.to_nat lo) b).
Proof.
  unfold slice.
  destruct (Z.leb_spec 0 lo); [|done]. destruct (Z.leb_spec lo hi); [|done].
  destruct (Z.leb_spec hi (len b)); [|done]. by intros [= <-].
Qed.

Lemma slice_whole {A} (b : list A) : slice b 0 (len b) = Ok b.
Proof.
  pose proof (len_nonneg b).
  destruct (slice_ok b 0 (len b)) as [-> _]; [lia..|].
  rewrite Z.sub_0_r. unfold len. rewrite Nat2Z.id. simpl. by rewrite firstn_all.
Qed.

(** Up to [2 ^ 53] bytes the cut of line 119 is at [Size]: a hit returns the
    whole buffer, file bytes first and zero bytes after them. *)
Lemma loadChunkFromDisk_hit_bytes m fl req w r w' :
  loadChunkFromDisk m fl req w = (Ok r, w') → Error r = None →
  Size req ≤ 2 ^ 53 →
  ∃ f, chunk_file (disk w) (chunkDir m req) (chunkName req) = Some f
       ∧ 0 ≤ fOffset req < len (data f)
       ∧ let n := Z.min (Size req) (len (data f) - fOffset req) in
         Bytes r = take (Z.to_nat n) (drop (Z.to_nat (fOffset req)) (data f))
                   ++ replicate (Z.to_nat (Size req - n)) x00
         ∧ len (Bytes r) = Size req.
Proof.
  intros Hload Herr Hsize.
  destruct (loadChunkFromDisk_hit _ _ _ _ _ _ Hload Herr) as (f & Hf & Hoff & Hpos & Hs).
  exists f. split; [done|]. split; [done|]. simpl in *.
  set (buf := take _ _ ++ _) in *.
  assert (Hlen : len buf = Size req).
  { unfold buf, len. rewrite length_app, length_take, length_drop, length_replicate.
    unfold len in Hoff. lia. }
  rewrite min_via_float64 in Hs by lia. rewrite Z.min_id, <- Hlen, slice_whole in Hs.
  by injection Hs as <-.
Qed.

(** For sizes from [0] to the allocation limit the disk lookup returns. *)
Lemma loadChunkFromDisk_returns m fl req w :
  0 ≤ Size req ≤ max_alloc → ∃ r w', loadChunkFromDisk m fl req w = (Ok r, w').
Proof.
  intros [Hlo Hhi]. pose proof max_alloc_exact as Hexact.
  destruct (loadChunkFromDisk m fl req w) as [[r|msg] w'] eqn:Hload; [by eauto|].
  exfalso. revert Hload. run_load. rewrite make_bytes_ok by lia. intros H.
  repeat (case_match; simplify_eq/=).
  all: match goal with
       | Hr : read_at _ _ _ _ = _, Hc : _ && _ = true |- _ =>
         apply andb_true_iff in Hc as [Hn%Z.ltb_lt Herr];
         destruct (read_at_hit _ _ _ _ _ _ _ Hr Hn Herr) as (Hoff & Hneq & Hbuf);
         rewrite len_replicate in Hneq by done;
         destruct (read_buffer_shape _ _ _ _ _ Hlo (proj1 Hoff) Hn Hneq Hbuf) as [_ Hlen]
       end.
  all: match goal with
       | Hs : slice ?l 0 _ = Panic _ |- _ =>
         rewrite Hlen, min_via_float64, Z.min_id, <- Hlen, slice_whole in Hs by lia
       end; done.
Qed.

(** A read at or beyond the end of the cached file is a miss, whatever the
    faults, once the buffer is made; so is a read at a negative offset. *)
Lemma loadChunkFromDisk_past_end m fl req w f :
  chunk_file (disk w) (chunkDir m req) (chunkName req) = Some f →
  len (data f) ≤ fOffset req ∨ fOffset req < 0 →
  0 ≤ Size req ≤ max_alloc →
  ∃ e, loadChunkFromDisk m fl req w = (Ok {| Error := Some e; Bytes := [] |}, w)
       ∧ (open_err fl = false →
          e = Errorf "Could not read file %s at %v"
                [ArgString (filename m req); ArgInt (fOffset req)]).
Proof.
  intros Hf Hoff Hsize. run_load. rewrite Hf, make_bytes_ok by done.
  destruct (open_err fl); simpl; [by eexists|]. rewrite Hf.
  pose proof (read_at_none fl (data f) (replicate (Z.to_nat (Size req)) x00) _ Hoff) as Hn.
  destruct (read_at _ _ _ _) as [[n err] buf]. simpl in Hn. subst n. simpl.
  by eexists.
Qed.

End DiskRead.

(** ** The disk write path *)

Section DiskWrite.

Implicit Types (m : ChunkManager) (fl : Faults) (req : ChunkRequest) (w : World).

Ltac run_store :=
  unfold storeChunkToDisk, os_Stat_dir, os_Stat_file, os_MkdirAll, ioutil_WriteFile;
  unfold mbind, M_bind, mret, M_ret; simpl.

Lemma chunk_file_Some (d : gmap string (gmap string File)) dir name f :
  chunk_file d dir name = Some f ↔
  ∃ entries, d !! dir = Some entries ∧ entries !! name = Some f.
Proof.
  unfold chunk_file. destruct (d !! dir) as [entries|]; simpl.
  - split; [by eauto|]. by intros (e & [= <-] & He).
  - split; [done|]. by intros (e & ? & _).
Qed.

(** Write-once: with the chunk file in place the store step changes nothing. *)
Lemma storeChunkToDisk_exists m fl req res w f :
  chunk_file (disk w) (chunkDir m req) (chunkName req) = Some f →
  storeChunkToDisk m fl req res w = (Ok tt, w).
Proof.
  intros Hf. destruct (proj1 (chunk_file_Some _ _ _ _) Hf) as (entries & Hd & He).
  run_store. rewrite Hd. simpl.
  destruct (stat_dir_err fl); simpl; rewrite Hf; by destruct (stat_file_err fl).
Qed.

(** The store step never panics and touches only the disk. *)
Lemma storeChunkToDisk_frame m fl req res w :
  ∃ w', storeChunkToDisk m fl req res w = (Ok tt, w')
        ∧ calls w' = calls w ∧ chan w' = chan w ∧ clock w' = clock w.
Proof.
  run_store. repeat (case_match; simplify_eq/=); by eexists.
Qed.

(** A chunk file that appears during the store step holds the bytes that
    were to be stored, unless the write itself failed half-way. *)
Lemma storeChunkToDisk_created m fl req res w w' f' :
  chunk_file (disk w) (chunkDir m req) (chunkName req) = None →
  storeChunkToDisk m fl req res w = (Ok tt, w') →
  chunk_file (disk w') (chunkDir m req) (chunkName req) = Some f' →
  write_err fl = None →
  data f' = Bytes res.
Proof.
  intros Hnone. run_store. intros Hrun Hf' Hwe. rewrite Hwe in Hrun.
  unfold chunk_file in *.
  repeat (case_match; simplify_eq/=); try congruence.
  all: repeat (rewrite lookup_insert_eq in *; simplify_eq/=); try congruence.
Qed.

(** Other files are out of reach of the store step. *)
Lemma storeChunkToDisk_others m fl req res w w' dir name :
  storeChunkToDisk m fl req res w = (Ok tt, w') →
  (dir, name) ≠ (chunkDir m req, chunkName req) →
  chunk_file (disk w') dir name = chunk_file (disk w) dir name.
Proof.
  run_store. intros Hrun Hne. unfold chunk_file in *.
  assert (Hput : ∀ (d : gmap string (gmap string File)) entries g,
            d !! chunkDir m req = Some entries →
            <[chunkDir m req := <[chunkName req := g]> entries]> d !! dir
              ≫= (λ e, e !! name) = d !! dir ≫= (λ e, e !! name)).
  { intros d entries g Hd. destruct (decide (chunkDir m req = dir)) as [<-|].
    - rewrite lookup_insert_eq, Hd. simpl. rewrite lookup_insert_ne; [done|congruence].
    - by rewrite lookup_insert_ne. }
  assert (Hnew : ∀ (d : gmap string (gmap string File)),
            d !! chunkDir m req = None →
            <[chunkDir m req := ∅]> d !! dir ≫= (λ e, e !! name)
            = d !! dir ≫= (λ e : gmap string File, e !! name)).
  { intros d Hd. destruct (decide (chunkDir m req = dir)) as [<-|].
    - by rewrite lookup_insert_eq, Hd.
    - by rewrite lookup_insert_ne. }
  repeat (case_match; simplify_eq/=); try done.
  all: repeat (rewrite lookup_insert_eq in *; simplify_eq/=).
  all: try (by erewrite Hput).
  all: try (by rewrite Hnew).
  all: try (erewrite Hput by (by rewrite lookup_insert_eq); by rewrite Hnew).
Qed.

End DiskWrite.

(** ** The goroutine of RequestChunk *)

Section Request.

Implicit Types (m : ChunkManager) (fl : Faults) (req : ChunkRequest) (w : World).

Lemma app_singleton_neq {A} (l : list A) x : l ++ [x] ≠ l.
Proof. intros H%(f_equal length). rewrite length_app in H. simpl in H. lia. Qed.

(** A manager with chunk size zero panics on the first line. *)
Lemma RequestChunk_zero_chunk m fl req w :
  ChunkSize m = 0 →
  RequestChunk m fl req w = (Panic "integer divide by zero", close (make_chan w)).
Proof. intros H. unfold RequestChunk, goroutine. by rewrite H. Qed.

(** A panic of the disk lookup ends the goroutine before the gateway. *)
Lemma RequestChunk_load_panic m fl req w msg w1 :
  ChunkSize m ≠ 0 →
  loadChunkFromDisk m fl (align m req) (make_chan w) = (Panic msg, w1) →
  RequestChunk m fl req w = (Panic msg, close w1).
Proof.
  intros Hcs Hload. unfold RequestChunk, goroutine.
  destruct (Z.eqb_spec (ChunkSize m) 0); [done|].
  unfold mbind, M_bind. by rewrite Hload.
Qed.

(** After a disk lookup that returned: the gateway is called once, its
    answer is sent, and a successful answer is stored. *)
Lemma RequestChunk_after_disk m fl req w diskRes w1 :
  ChunkSize m ≠ 0 →
  loadChunkFromDisk m fl (align m req) (make_chan w) = (Ok diskRes, w1) →
  let rq := align m req in
  let apiRes := downloadManager m (calls w) rq in
  let l := len (Bytes apiRes) in
  let w2 := {| disk := disk w1; clock := clock w1; calls := calls w ++ [rq];
               chan := disk_events diskRes |} in
  RequestChunk m fl req w =
  match Error apiRes with
  | Some _ => (Ok rq, close (send apiRes w2).2)
  | None =>
    match slice (Bytes apiRes) (sOffset_of rq l) (eOffset_of rq l) with
    | Panic msg => (Panic msg, close w2)
    | Ok b =>
      (Ok rq, close (storeChunkToDisk m fl rq apiRes
                       (send {| Error := None; Bytes := b |} w2).2).2)
    end
  end.
Proof.
  intros Hcs Hload.
  destruct (loadChunkFromDisk_frame _ _ _ _ _ _ Hload) as (Hcalls & Hchan & _).
  simpl in Hcalls, Hchan.
  unfold RequestChunk, goroutine.
  destruct (Z.eqb_spec (ChunkSize m) 0); [done|].
  unfold mbind, M_bind at 1 2. rewrite Hload.
  destruct w1 as [d1 c1 calls1 chan1]. simpl in *. subst calls1 chan1.
  unfold disk_events, DownloadManager_RequestChunk, send, lift, M_bind, mret, M_ret.
  destruct (Error diskRes); simpl.
  all: destruct (Error (downloadManager m (calls w) (align m req))); simpl; [done|].
  all: destruct (slice _ _ _) as [b|msg]; simpl; [|done].
  all: match goal with
       | |- context [storeChunkToDisk ?m ?fl ?r ?a ?w0] =>
         destruct (storeChunkToDisk_frame m fl r a w0) as (w3 & -> & _)
       end; done.
Qed.

(** The same run, read off the final world: the gateway call, the channel
    and the disk. *)
Lemma RequestChunk_trace m fl req w diskRes w1 :
  ChunkSize m ≠ 0 →
  loadChunkFromDisk m fl (align m req) (make_chan w) = (Ok diskRes, w1) →
  let rq := align m req in
  let apiRes := downloadManager m (calls w) rq in
  let l := len (Bytes apiRes) in
  let run := RequestChunk m fl req w in
  calls run.2 = calls w ++ [rq]
  ∧ match Error apiRes with
    | Some _ =>
      run.1 = Ok rq ∧ chan run.2 = disk_events diskRes ++ [Send apiRes; Close]
      ∧ disk run.2 = disk w1
    | None =>
      match slice (Bytes apiRes) (sOffset_of rq l) (eOffset_of rq l) with
      | Panic msg =>
        run.1 = Panic msg ∧ chan run.2 = disk_events diskRes ++ [Close]
        ∧ disk run.2 = disk w1
      | Ok b =>
        run.1 = Ok rq
        ∧ chan run.2 = disk_events diskRes ++ [Send {| Error := None; Bytes := b |}; Close]
        ∧ ∃ w2 w3, disk w2 = disk w1
                   ∧ storeChunkToDisk m fl rq apiRes w2 = (Ok tt, w3)
                   ∧ disk run.2 = disk w3
      end
    end.
Proof.
  intros Hcs Hload. simpl. rewrite (RequestChunk_after_disk _ _ _ _ _ _ Hcs Hload).
  destruct (Error (downloadManager m (calls w) (align m req))); simpl.
  { split; [done|]. split; [done|]. split; [|done]. by rewrite <- app_assoc. }
  destruct (slice _ _ _) as [b|msg]; simpl; [|done].
  match goal with
  | |- context [storeChunkToDisk ?m ?fl ?r ?a ?w0] =>
    destruct (storeChunkToDisk_frame m fl r a w0) as (w3 & Hst & Hcalls & Hchan & _)
  end.
  rewrite Hst. simpl in *. rewrite Hcalls, Hchan. split; [done|]. split; [done|].
  split; [by rewrite <- app_assoc|]. eexists _, w3. split; [|split; [exact Hst|done]].
  done.
Qed.

(** A run that called the gateway got past the disk lookup, and called it
    with the aligned request. *)
Lemma RequestChunk_gateway_called m fl req w rq :
  calls (RequestChunk m fl req w).2 = calls w ++ [rq] →
  ChunkSize m ≠ 0 ∧ rq = align m req
  ∧ ∃ diskRes w1, loadChunkFromDisk m fl (align m req) (make_chan w) = (Ok diskRes, w1).
Proof.
  intros Hcalls.
  destruct (decide (ChunkSize m = 0)) as [Hz|Hnz].
  { rewrite RequestChunk_zero_chunk in Hcalls by done. simpl in Hcalls.
    symmetry in Hcalls. by apply app_singleton_neq in Hcalls. }
  destruct (loadChunkFromDisk m fl (align m req) (make_chan w)) as [[d|msg] w1] eqn:Hload.
  - destruct (RequestChunk_trace _ _ _ _ _ _ Hnz Hload) as [Hc _]. simpl in Hc.
    rewrite Hc in Hcalls. apply app_inj_tail in Hcalls as [_ <-]. by eauto.
  - rewrite (RequestChunk_load_panic _ _ _ _ _ _ Hnz Hload) in Hcalls.
    destruct (loadChunkFromDisk_frame _ _ _ _ _ _ Hload) as (Hc & _).
    simpl in *. rewrite Hc in Hcalls.
    symmetry in Hcalls. by apply app_singleton_neq in Hcalls.
Qed.

Lemma messages_disk_events d :
  ∀ r, r ∈ messages (disk_events d) → r = d ∧ Error r = None.
Proof.
  unfold disk_events. intros r. destruct (Error d) eqn:He; simpl.
  - by intros ?%elem_of_nil.
  - by intros ->%list_elem_of_singleton.
Qed.

Lemma messages_app evs evs' : messages (evs ++ evs') = messages evs ++ messages evs'.
Proof. unfold messages. apply omap_app. Qed.

Lemma rem_nonneg_le a b : 0 ≤ a → 0 ≤ Z.rem a b ≤ a.
Proof.
  intros Ha. destruct (decide (b = 0)) as [->|Hb].
  - rewrite Z.rem_0_r_ext by done. lia.
  - split; [by apply Z.rem_nonneg|].
    rewrite <- Z.rem_abs_r by done. apply Z.rem_le; lia.
Qed.

(** The fields written at lines 66-69, for an offset that is not negative. *)
Lemma align_fields m req :
  0 ≤ Offset req ≤ max_int64 →
  fOffset (align m req) = Z.rem (Offset req) (ChunkSize m)
  ∧ offsetStart (align m req) = Offset req - Z.rem (Offset req) (ChunkSize m)
  ∧ 0 ≤ fOffset (align m req) ≤ Offset req.
Proof.
  intros Hoff. pose proof (rem_nonneg_le (Offset req) (ChunkSize m) (proj1 Hoff)).
  unfold align, sub64. simpl. split; [done|]. split; [|done].
  apply wrap64_in_range. unfold in_range, min_int64, max_int64 in *. lia.
Qed.

(** Lines 81-82 on a request that is not negative and does not overflow,
    against a reply of at most [2 ^ 53] bytes. *)
Lemma subrange_bounds m req l :
  0 ≤ Offset req ≤ max_int64 → 0 ≤ Size req →
  Z.rem (Offset req) (ChunkSize m) + Size req ≤ max_int64 →
  0 ≤ l ≤ 2 ^ 53 →
  let fo := Z.rem (Offset req) (ChunkSize m) in
  sOffset_of (align m req) l = Z.min fo l
  ∧ eOffset_of (align m req) l = Z.min (fo + Size req) l.
Proof.
  intros Hoff Hsize Hsum Hl.
  destruct (align_fields m req Hoff) as (Hfo & _ & Hfo').
  unfold sOffset_of, eOffset_of, add64. rewrite Hfo in *. simpl.
  rewrite wrap64_in_range by (unfold in_range, min_int64, max_int64 in *; lia).
  by rewrite !min_via_float64 by lia.
Qed.

End Request.
(** ** Construction *)

Section Construction.

(** C5: [NewChunkManager] returns an error, and then no manager, exactly
    when the path is empty, the chunk size is below 4096 or the chunk size is
    not a multiple of 1024.  So it fails for the sizes 0, 1000 and 4097 and
    for the empty path, and succeeds for 4096 and 8192 with another path. *)
Theorem NewChunkManager_fails_iff (dm : DownloadManager) (chunkPath : string) (chunkSize : Z) :
  let r := NewChunkManager dm chunkPath chunkSize in
  (is_Some r.2 ↔ chunkPath = EmptyString ∨ chunkSize < 4096 ∨ ¬ (1024 | chunkSize))
  ∧ (is_Some r.2 → r.1 = None)
  ∧ (r.2 = None →
     r.1 = Some {| ChunkPath := chunkPath; ChunkSize := chunkSize; downloadManager := dm |})
  ∧ (∀ s, s ∈ [0; 1000; 4097] → is_Some (NewChunkManager dm chunkPath s).2)
  ∧ is_Some (NewChunkManager dm EmptyString chunkSize).2
  ∧ (chunkPath ≠ EmptyString → ∀ s, s ∈ [4096; 8192] →
     (NewChunkManager dm chunkPath s).2 = None
     ∧ is_Some (NewChunkManager dm chunkPath s).1).
Proof.
  assert (Hiff : ∀ p s,
    is_Some (NewChunkManager dm p s).2 ↔ p = EmptyString ∨ s < 4096 ∨ ¬ (1024 | s)).
  { intros p s. unfold NewChunkManager.
    destruct (String.eqb_spec EmptyString p) as [<-|Hp]; simpl; [by split; eauto|].
    destruct (Z.ltb_spec s 4096); simpl; [by split; eauto|].
    rewrite <- Z.rem_divide by done.
    destruct (Z.eqb_spec (Z.rem s 1024) 0) as [Hr|Hr]; simpl.
    - split; [by intros [? [=]]|]. intros [?|[?|?]]; [congruence|lia|done].
    - split; eauto. }
  cbv zeta. split; [apply Hiff|]. split; [|split; [|split; [|split]]].
  - unfold NewChunkManager. repeat case_match; simpl; by intros [? [=]] || done.
  - unfold NewChunkManager. repeat case_match; simpl; by intros [=] || done.
  - intros s Hs. apply Hiff. right.
    repeat (apply elem_of_cons in Hs as [->|Hs]); [lia|lia| |by apply elem_of_nil in Hs].
    right. intros [k Hk]. lia.
  - apply Hiff. by left.
  - intros Hp s Hs. unfold NewChunkManager.
    destruct (String.eqb_spec EmptyString chunkPath) as [<-|_]; [done|].
    repeat (apply elem_of_cons in Hs as [->|Hs]); [by eauto..|by apply elem_of_nil in Hs].
Qed.

End Construction.

(** ** Alignment *)

Section Alignment.

Implicit Types (m : ChunkManager) (req : ChunkRequest).

(** C4, amended: for a chunk size that is a multiple of 1024 and at least
    4096 and an offset from 0 to the largest [int64], the fields written at
    lines 66-69 satisfy [offsetStart <= Offset < offsetStart + ChunkSize],
    [offsetStart mod ChunkSize = 0] and [0 <= fOffset < ChunkSize], with
    [fOffset = Offset mod ChunkSize] and
    [offsetStart = Offset - Offset mod ChunkSize]; and
    [offsetEnd = offsetStart + ChunkSize] whenever that sum fits an [int64],
    being that sum less [2 ^ 64] otherwise. *)
Theorem align_window m req :
  4096 ≤ ChunkSize m → (1024 | ChunkSize m) → in_range (ChunkSize m) →
  0 ≤ Offset req ≤ max_int64 →
  let rq := align m req in
  fOffset rq = Offset req mod ChunkSize m
  ∧ offsetStart rq = Offset req - Offset req mod ChunkSize m
  ∧ offsetStart rq ≤ Offset req < offsetStart rq + ChunkSize m
  ∧ offsetStart rq mod ChunkSize m = 0
  ∧ 0 ≤ fOffset rq < ChunkSize m
  ∧ (offsetStart rq + ChunkSize m ≤ max_int64 →
     offsetEnd rq = offsetStart rq + ChunkSize m)
  ∧ (max_int64 < offsetStart rq + ChunkSize m →
     offsetEnd rq = offsetStart rq + ChunkSize m - 2 ^ 64).
Proof.
  intros Hcs Hdiv Hrange Hoff.
  destruct (align_fields m req Hoff) as (Hfo & Hos & _).
  rewrite Z.rem_mod_nonneg in Hfo, Hos by lia.
  pose proof (Z.mod_pos_bound (Offset req) (ChunkSize m) ltac:(lia)) as Hmod.
  assert (Hoe : offsetEnd (align m req)
                = wrap64 (offsetStart (align m req) + ChunkSize m)) by done.
  cbv zeta. rewrite Hoe, Hfo, Hos.
  split; [done|]. split; [done|]. split; [lia|]. split.
  { rewrite Zminus_mod_idemp_r, Z.sub_diag. apply Z.mod_0_l; lia. }
  split; [lia|]. split; intros Hsum.
  - apply wrap64_in_range. unfold in_range, min_int64, max_int64 in *. lia.
  - apply wrap64_above. unfold in_range, min_int64, max_int64 in *. lia.
Qed.

End Alignment.

(** ** The network path *)

Section Network.

Implicit Types (m : ChunkManager) (fl : Faults) (req : ChunkRequest) (w : World).

(** C10, amended: for a request with [Offset >= 0] and [Size >= 0] whose
    in-window end [Offset mod ChunkSize + Size] does not exceed the largest
    [int64], and a gateway reply of at most [2 ^ 53] bytes, the bounds of
    lines 81-82 are [sOffset = min(fOffset, L)] and
    [eOffset = min(fOffset + Size, L)], they satisfy
    [0 <= sOffset <= eOffset <= L], the slice does not panic and has
    [eOffset - sOffset] bytes, and a run in which the gateway gave this reply
    sends exactly that slice. *)
Theorem subrange_in_bounds m fl req w (bs : list byte) :
  0 ≤ Offset req ≤ max_int64 → 0 ≤ Size req →
  Z.rem (Offset req) (ChunkSize m) + Size req ≤ max_int64 →
  len bs ≤ 2 ^ 53 →
  let rq := align m req in
  let s := sOffset_of rq (len bs) in
  let e := eOffset_of rq (len bs) in
  s = Z.min (fOffset rq) (len bs)
  ∧ e = Z.min (fOffset rq + Size rq) (len bs)
  ∧ 0 ≤ s ≤ e ∧ e ≤ len bs
  ∧ ∃ b, slice bs s e = Ok b ∧ len b = e - s
         ∧ (calls (RequestChunk m fl req w).2 = calls w ++ [rq] →
            downloadManager m (calls w) rq = {| Error := None; Bytes := bs |} →
            ∃ pre, chan (RequestChunk m fl req w).2
                   = pre ++ [Send {| Error := None; Bytes := b |}; Close]).
Proof.
  intros Hoff Hsize Hsum Hl. pose proof (len_nonneg bs) as Hl0.
  destruct (subrange_bounds m req (len bs) Hoff Hsize Hsum ltac:(lia)) as [Hs He].
  destruct (align_fields m req Hoff) as (Hfo & _ & Hfo').
  cbv zeta in *. rewrite Hs, He, Hfo.
  split; [done|]. split; [done|].
  rewrite Hfo in Hfo'. split; [lia|]. split; [lia|].
  destruct (slice_ok bs (Z.min (Z.rem (Offset req) (ChunkSize m)) (len bs))
              (Z.min (Z.rem (Offset req) (ChunkSize m) + Size req) (len bs)))
    as [Hslice Hlen]; [lia..|].
  eexists. split; [exact Hslice|]. split; [exact Hlen|].
  intros Hcalls Hreply.
  destruct (RequestChunk_gateway_called _ _ _ _ _ Hcalls) as (Hcs & _ & d & w1 & Hload).
  destruct (RequestChunk_trace _ _ _ _ _ _ Hcs Hload) as [_ Htrace].
  cbv zeta in Htrace. rewrite Hreply in Htrace. simpl in Htrace.
  rewrite Hs, He, Hslice in Htrace. destruct Htrace as (_ & -> & _). by eexists.
Qed.

(** C2, amended: for a request with [Offset >= 0] and [Size > 0] whose
    in-window end [Offset mod ChunkSize + Size] does not exceed the largest
    [int64], when the gateway succeeds with [L <= 2 ^ 53] bytes, the success
    message sent for it holds exactly the bytes from
    [min(Offset mod ChunkSize, L)] to [min(Offset mod ChunkSize + Size, L)];
    at most one message, a disk hit, precedes it, and the channel is closed
    after it. *)
Theorem network_subrange m fl req w rq (bs : list byte) :
  0 ≤ Offset req ≤ max_int64 → 0 < Size req →
  Z.rem (Offset req) (ChunkSize m) + Size req ≤ max_int64 →
  len bs ≤ 2 ^ 53 →
  calls (RequestChunk m fl req w).2 = calls w ++ [rq] →
  downloadManager m (calls w) rq = {| Error := None; Bytes := bs |} →
  let fo := Z.rem (Offset req) (ChunkSize m) in
  let s := Z.min fo (len bs) in
  let e := Z.min (fo + Size req) (len bs) in
  (RequestChunk m fl req w).1 = Ok rq
  ∧ ∃ pre, chan (RequestChunk m fl req w).2
           = pre ++ [Send {| Error := None;
                             Bytes := take (Z.to_nat (e - s)) (drop (Z.to_nat s) bs) |};
                     Close]
           ∧ (pre = [] ∨ ∃ d, pre = [Send d] ∧ Error d = None).
Proof.
  intros Hoff Hsize Hsum Hl Hcalls Hreply. pose proof (len_nonneg bs) as Hl0.
  destruct (RequestChunk_gateway_called _ _ _ _ _ Hcalls) as (Hcs & -> & d & w1 & Hload).
  destruct (subrange_bounds m req (len bs) Hoff ltac:(lia) Hsum ltac:(lia)) as [Hs He].
  destruct (align_fields m req Hoff) as (Hfo & _ & Hfo'). rewrite Hfo in Hfo'.
  destruct (RequestChunk_trace _ _ _ _ _ _ Hcs Hload) as [_ Htrace].
  cbv zeta in *. rewrite Hreply in Htrace. simpl in Htrace. rewrite Hs, He in Htrace.
  destruct (slice_ok bs (Z.min (Z.rem (Offset req) (ChunkSize m)) (len bs))
              (Z.min (Z.rem (Offset req) (ChunkSize m) + Size req) (len bs)))
    as [Hslice _]; [lia..|].
  rewrite Hslice in Htrace. destruct Htrace as (-> & -> & _).
  split; [done|]. eexists. split; [done|].
  unfold disk_events. destruct (Error d) eqn:Hd; [by left|right; by eauto].
Qed.

End Network.

(** ** The stream of messages *)

Section Stream.

Implicit Types (m : ChunkManager) (fl : Faults) (req : ChunkRequest) (w : World).

(** C3, amended: for a manager with a non-zero chunk size and a request with
    [Offset >= 0], [0 < Size <= 2 ^ 48], the allocation limit of the read
    buffer, and [Offset mod ChunkSize + Size] within [int64], whose gateway
    reply, when it is a success, has at most [2 ^ 53] bytes, the disk lookup
    returns, the goroutine does not panic, and the channel carries exactly
    one of four sequences, chosen by the two outcomes: hit and success, the
    disk message and the sub-range; miss and success, the sub-range; hit and
    failure, the disk message and the gateway's error; miss and failure, the
    gateway's error; each followed by the close. *)
Theorem RequestChunk_shapes m fl req w :
  ChunkSize m ≠ 0 →
  0 ≤ Offset req ≤ max_int64 → 0 < Size req ≤ max_alloc →
  Z.rem (Offset req) (ChunkSize m) + Size req ≤ max_int64 →
  (Error (downloadManager m (calls w) (align m req)) = None →
   len (Bytes (downloadManager m (calls w) (align m req))) ≤ 2 ^ 53) →
  let rq := align m req in
  let apiRes := downloadManager m (calls w) rq in
  let run := RequestChunk m fl req w in
  let fo := Z.rem (Offset req) (ChunkSize m) in
  let s := Z.min fo (len (Bytes apiRes)) in
  let e := Z.min (fo + Size req) (len (Bytes apiRes)) in
  let sub := {| Error := None;
                Bytes := take (Z.to_nat (e - s)) (drop (Z.to_nat s) (Bytes apiRes)) |} in
  ∃ diskRes w1,
    loadChunkFromDisk m fl rq (make_chan w) = (Ok diskRes, w1)
    ∧ run.1 = Ok rq
    ∧ chan run.2 =
      match Error diskRes, Error apiRes with
      | None, None => [Send diskRes; Send sub; Close]
      | Some _, None => [Send sub; Close]
      | None, Some _ => [Send diskRes; Send apiRes; Close]
      | Some _, Some _ => [Send apiRes; Close]
      end
    ∧ (1 ≤ length (messages (chan run.2)) ≤ 2)%nat.
Proof.
  intros Hcs Hoff Hsize Hsum Hl.
  destruct (loadChunkFromDisk_returns m fl (align m req) (make_chan w))
    as (d & w1 & Hload); [simpl; lia|].
  exists d, w1. split; [done|].
  destruct (RequestChunk_trace _ _ _ _ _ _ Hcs Hload) as [_ Htrace].
  cbv zeta in *. unfold disk_events in Htrace.
  destruct (Error (downloadManager m (calls w) (align m req))) as [err|] eqn:Hapi.
  - destruct Htrace as (-> & -> & _). split; [done|].
    destruct (Error d); simpl; (split; [done|lia]).
  - specialize (Hl eq_refl).
    pose proof (len_nonneg (Bytes (downloadManager m (calls w) (align m req)))) as Hl0.
    destruct (subrange_bounds m req _ Hoff ltac:(lia) Hsum (conj Hl0 Hl)) as [Hs He].
    destruct (align_fields m req Hoff) as (Hfo & _ & Hfo'). rewrite Hfo in Hfo'.
    cbv zeta in *. rewrite Hs, He in Htrace.
    match type of Htrace with
    | match slice ?b ?lo ?hi with _ => _ end =>
      destruct (slice_ok b lo hi) as [Hslice _]; [lia..|]
    end.
    rewrite Hslice in Htrace. destruct Htrace as (-> & -> & _). split; [done|].
    destruct (Error d); simpl; (split; [done|lia]).
Qed.

(** C7: when the gateway is called for a request and fails, the goroutine
    ends normally, the last message on the channel is the gateway's response
    itself, whatever precedes it carries no error, so the channel holds
    exactly one error message, and the directories, files and bytes on disk
    are those from before the request. *)
Theorem gateway_failure_terminal m fl req w rq :
  calls (RequestChunk m fl req w).2 = calls w ++ [rq] →
  is_Some (Error (downloadManager m (calls w) rq)) →
  let run := RequestChunk m fl req w in
  let apiRes := downloadManager m (calls w) rq in
  run.1 = Ok rq
  ∧ (∃ pre, chan run.2 = pre ++ [Send apiRes; Close]
            ∧ ∀ r, r ∈ messages pre → Error r = None)
  ∧ length (filter (λ r, is_Some (Error r)) (messages (chan run.2))) = 1%nat
  ∧ contents (disk run.2) = contents (disk w).
Proof.
  intros Hcalls [err Herr].
  destruct (RequestChunk_gateway_called _ _ _ _ _ Hcalls) as (Hcs & -> & d & w1 & Hload).
  destruct (RequestChunk_trace _ _ _ _ _ _ Hcs Hload) as [_ Htrace].
  destruct (loadChunkFromDisk_frame _ _ _ _ _ _ Hload) as (_ & _ & Hdisk).
  cbv zeta in *. rewrite Herr in Htrace. destruct Htrace as (-> & Hchan & ->).
  split; [done|]. split; [|split; [|done]].
  - eexists. split; [exact Hchan|]. intros r Hr.
    by destruct (messages_disk_events _ _ Hr).
  - rewrite Hchan. unfold disk_events. destruct (Error d) eqn:Hd; simpl.
    + rewrite filter_cons_True by (by rewrite Herr). done.
    + rewrite filter_cons_False by (rewrite Hd; by intros [? [=]]).
      rewrite filter_cons_True by (by rewrite Herr). done.
Qed.

(** After a disk lookup that reported an error: the gateway call and what
    the channel holds. *)
Lemma RequestChunk_after_miss m fl req w diskRes w1 :
  ChunkSize m ≠ 0 →
  loadChunkFromDisk m fl (align m req) (make_chan w) = (Ok diskRes, w1) →
  is_Some (Error diskRes) →
  let rq := align m req in
  let apiRes := downloadManager m (calls w) rq in
  let l := len (Bytes apiRes) in
  let run := RequestChunk m fl req w in
  calls run.2 = calls w ++ [rq]
  ∧ match Error apiRes with
    | Some _ => chan run.2 = [Send apiRes; Close]
    | None =>
      match slice (Bytes apiRes) (sOffset_of rq l) (eOffset_of rq l) with
      | Ok b => chan run.2 = [Send {| Error := None; Bytes := b |}; Close]
      | Panic _ => chan run.2 = [Close]
      end
    end.
Proof.
  intros Hcs Hload [err Herr].
  destruct (RequestChunk_trace _ _ _ _ _ _ Hcs Hload) as [Hcalls Htrace].
  cbv zeta in *. unfold disk_events in Htrace. rewrite Herr in Htrace. simpl in Htrace.
  split; [done|].
  destruct (Error (downloadManager m (calls w) (align m req))).
  - by destruct Htrace as (_ & -> & _).
  - destruct (slice _ _ _); by destruct Htrace as (_ & -> & _).
Qed.

(** C8: when the disk lookup of a request returns an error, the gateway is
    still called, nothing is sent for the disk step, so the channel carries
    the gateway's message alone and then the close, and an error message on
    the channel can only be the gateway's response. *)
Theorem disk_failure_not_surfaced m fl req w diskRes w1 :
  ChunkSize m ≠ 0 →
  loadChunkFromDisk m fl (align m req) (make_chan w) = (Ok diskRes, w1) →
  is_Some (Error diskRes) →
  let rq := align m req in
  let apiRes := downloadManager m (calls w) rq in
  let l := len (Bytes apiRes) in
  let run := RequestChunk m fl req w in
  calls run.2 = calls w ++ [rq]
  ∧ match Error apiRes with
    | Some _ => chan run.2 = [Send apiRes; Close]
    | None =>
      match slice (Bytes apiRes) (sOffset_of rq l) (eOffset_of rq l) with
      | Ok b => chan run.2 = [Send {| Error := None; Bytes := b |}; Close]
      | Panic _ => chan run.2 = [Close]
      end
    end
  ∧ (length (messages (chan run.2)) ≤ 1)%nat
  ∧ ∀ r, r ∈ messages (chan run.2) → is_Some (Error r) → r = apiRes.
Proof.
  intros Hcs Hload Herr.
  destruct (RequestChunk_after_miss _ _ _ _ _ _ Hcs Hload Herr) as [Hcalls Hchan].
  cbv zeta in *. split; [done|]. split; [done|].
  destruct (Error (downloadManager m (calls w) (align m req))) eqn:Hapi.
  - rewrite Hchan. simpl. split; [lia|]. by intros r ->%list_elem_of_singleton.
  - destruct (slice _ _ _) as [b|msg]; rewrite Hchan; simpl; (split; [lia|]).
    + intros r ->%list_elem_of_singleton [? [=]].
    + by intros r ?%elem_of_nil.
Qed.

(** C9, amended: for a manager with a non-zero chunk size and a request
    with [Offset >= 0], [0 <= Size <= 2 ^ 48], the allocation limit of the
    read buffer, and [Offset mod ChunkSize + Size] within [int64]: when the
    chunk file is there and the in-window offset lies at or beyond its length,
    the positioned read yields no byte, the disk lookup returns an error and
    changes nothing, and the request is served by the gateway alone: the
    goroutine ends normally, the gateway is called, and the one message on the
    channel is its error or, for a success of at most [2 ^ 53] bytes, the
    sub-range of its bytes.  Unless the open itself failed, the error of the
    lookup is the one of line 127. *)
Theorem read_past_end_is_miss m fl req w f :
  ChunkSize m ≠ 0 →
  0 ≤ Offset req ≤ max_int64 → 0 ≤ Size req ≤ max_alloc →
  Z.rem (Offset req) (ChunkSize m) + Size req ≤ max_int64 →
  chunk_file (disk w) (chunkDir m (align m req)) (chunkName (align m req)) = Some f →
  len (data f) ≤ fOffset (align m req) →
  (Error (downloadManager m (calls w) (align m req)) = None →
   len (Bytes (downloadManager m (calls w) (align m req))) ≤ 2 ^ 53) →
  let rq := align m req in
  let apiRes := downloadManager m (calls w) rq in
  let run := RequestChunk m fl req w in
  let fo := Z.rem (Offset req) (ChunkSize m) in
  let s := Z.min fo (len (Bytes apiRes)) in
  let e := Z.min (fo + Size req) (len (Bytes apiRes)) in
  (read_at fl (data f) (replicate (Z.to_nat (Size req)) x00) (fOffset rq)).1.1 = 0
  ∧ (∃ err, loadChunkFromDisk m fl rq w = (Ok {| Error := Some err; Bytes := [] |}, w)
            ∧ (open_err fl = false →
               err = Errorf "Could not read file %s at %v"
                       [ArgString (filename m rq); ArgInt (fOffset rq)]))
  ∧ run.1 = Ok rq
  ∧ calls run.2 = calls w ++ [rq]
  ∧ chan run.2
    = [Send match Error apiRes with
            | Some _ => apiRes
            | None =>
              {| Error := None;
                 Bytes := take (Z.to_nat (e - s)) (drop (Z.to_nat s) (Bytes apiRes)) |}
            end;
       Close].
Proof.
  intros Hcs Hoff Hsize Hsum Hf Hpast Hl. cbv zeta.
  split; [apply read_at_none; by left|].
  destruct (loadChunkFromDisk_past_end m fl (align m req) w f Hf (or_introl Hpast))
    as (err & Hload & Herr); [done|].
  split; [by eauto|].
  destruct (loadChunkFromDisk_past_end m fl (align m req) (make_chan w) f Hf
              (or_introl Hpast)) as (err' & Hload' & _); [done|].
  destruct (RequestChunk_trace _ _ _ _ _ _ Hcs Hload') as [Hcalls Htrace].
  cbv zeta in Hcalls, Htrace. unfold disk_events in Htrace. simpl in Htrace.
  destruct (Error (downloadManager m (calls w) (align m req))) eqn:Hapi.
  - by destruct Htrace as (-> & -> & _).
  - specialize (Hl eq_refl).
    pose proof (len_nonneg (Bytes (downloadManager m (calls w) (align m req)))) as Hl0.
    destruct (subrange_bounds m req _ Hoff (proj1 Hsize) Hsum (conj Hl0 Hl)) as [Hs He].
    destruct (align_fields m req Hoff) as (Hfo & _ & Hfo'). rewrite Hfo in Hfo'.
    cbv zeta in Hs, He. rewrite Hs, He in Htrace.
    match type of Htrace with
    | match slice ?b ?lo ?hi with _ => _ end =>
      destruct (slice_ok b lo hi) as [Hslice _]; [lia..|]
    end.
    rewrite Hslice in Htrace. by destruct Htrace as (-> & -> & _).
Qed.

End Stream.

(** ** Write-once caching *)

Section WriteOnce.

Implicit Types (m : ChunkManager) (fl : Faults) (req : ChunkRequest) (w : World).

Lemma chunk_file_contents (d : gmap string (gmap string File)) dir name :
  data <$> chunk_file d dir name = contents d !! dir ≫= λ entries, entries !! name.
Proof.
  unfold chunk_file, contents. rewrite lookup_fmap.
  destruct (d !! dir) as [entries|]; simpl; [|done]. by rewrite lookup_fmap.
Qed.

(** Either a request leaves the bytes on disk as they were, or its gateway
    call succeeded and the disk is what the store step made of it. *)
Lemma RequestChunk_disk m fl req w :
  let rq := align m req in
  let apiRes := downloadManager m (calls w) rq in
  let run := RequestChunk m fl req w in
  contents (disk run.2) = contents (disk w)
  ∨ (Error apiRes = None
     ∧ ∃ w2 w3, contents (disk w2) = contents (disk w)
                ∧ storeChunkToDisk m fl rq apiRes w2 = (Ok tt, w3)
                ∧ disk run.2 = disk w3).
Proof.
  cbv zeta. destruct (decide (ChunkSize m = 0)) as [Hz|Hcs].
  { left. by rewrite RequestChunk_zero_chunk. }
  destruct (loadChunkFromDisk m fl (align m req) (make_chan w)) as [[d|msg] w1] eqn:Hload.
  2: { left. rewrite (RequestChunk_load_panic _ _ _ _ _ _ Hcs Hload).
       by destruct (loadChunkFromDisk_frame _ _ _ _ _ _ Hload) as (_ & _ & Hdisk). }
  destruct (loadChunkFromDisk_frame _ _ _ _ _ _ Hload) as (_ & _ & Hdisk).
  destruct (RequestChunk_trace _ _ _ _ _ _ Hcs Hload) as [_ Htrace].
  cbv zeta in Htrace. simpl in Hdisk.
  destruct (Error (downloadManager m (calls w) (align m req))) eqn:Hapi.
  { left. destruct Htrace as (_ & _ & Hrun). by rewrite Hrun. }
  destruct (slice _ _ _) as [b|msg].
  - right. split; [done|]. destruct Htrace as (_ & _ & w2 & w3 & Hw2 & Hst & Hrun).
    exists w2, w3. by rewrite Hw2.
  - left. destruct Htrace as (_ & _ & Hrun). by rewrite Hrun.
Qed.

(** With the chunk file in place, a whole request leaves every byte on disk
    as it was. *)
Lemma RequestChunk_keeps_contents m fl req w f :
  chunk_file (disk w) (chunkDir m (align m req)) (chunkName (align m req)) = Some f →
  contents (disk (RequestChunk m fl req w).2) = contents (disk w).
Proof.
  intros Hf.
  destruct (RequestChunk_disk m fl req w) as [Hsame|(_ & w2 & w3 & Hw2 & Hst & Hrun)];
    [done|].
  assert (Hf2 : is_Some (chunk_file (disk w2)
                  (chunkDir m (align m req)) (chunkName (align m req)))).
  { apply fmap_is_Some with (f := data). rewrite chunk_file_contents, Hw2.
    rewrite <- chunk_file_contents, Hf. by eexists. }
  destruct Hf2 as [f2 Hf2].
  rewrite (storeChunkToDisk_exists _ _ _ _ _ _ Hf2) in Hst.
  injection Hst as <-. by rewrite Hrun.
Qed.

(** C6, amended: the store step is write-once: with a chunk file in place
    for the cache key it leaves the world as it is.  Hence, once a first
    request has left a chunk file, the same request issued again leaves the
    same directories and files with the same bytes, among them that one chunk
    file; it calls the gateway again when the chunk size is not zero and
    [0 <= Size <= 2 ^ 48], the allocation limit of the read buffer; and a
    chunk file that the first request created holds the bytes of its gateway
    reply. *)
Theorem storeChunkToDisk_write_once m fl1 fl2 req res w0 f :
  chunk_file (disk (RequestChunk m fl1 req w0).2)
    (chunkDir m (align m req)) (chunkName (align m req)) = Some f →
  let rq := align m req in
  let w1 := (RequestChunk m fl1 req w0).2 in
  let run2 := RequestChunk m fl2 req w1 in
  storeChunkToDisk m fl2 rq res w1 = (Ok tt, w1)
  ∧ contents (disk run2.2) = contents (disk w1)
  ∧ data <$> chunk_file (disk run2.2) (chunkDir m rq) (chunkName rq) = Some (data f)
  ∧ (ChunkSize m ≠ 0 → 0 ≤ Size req ≤ max_alloc → calls run2.2 = calls w1 ++ [rq])
  ∧ (chunk_file (disk w0) (chunkDir m rq) (chunkName rq) = None →
     write_err fl1 = None →
     Error (downloadManager m (calls w0) rq) = None
     ∧ data f = Bytes (downloadManager m (calls w0) rq)).
Proof.
  intros Hf. cbv zeta.
  pose proof (RequestChunk_keeps_contents m fl2 req _ f Hf) as Hkeep.
  split; [by eapply storeChunkToDisk_exists|]. split; [done|].
  split; [by rewrite chunk_file_contents, Hkeep, <- chunk_file_contents, Hf|].
  split.
  - intros Hcs Hsize.
    destruct (loadChunkFromDisk_returns m fl2 (align m req)
                (make_chan (RequestChunk m fl1 req w0).2)) as (d & w' & Hload); [done|].
    by destruct (RequestChunk_trace _ _ _ _ _ _ Hcs Hload) as [Hcalls _].
  - intros Hnone Hwe.
    destruct (RequestChunk_disk m fl1 req w0)
      as [Hsame|(Hapi & w2 & w3 & Hw2 & Hst & Hrun)].
    + exfalso. assert (data <$> Some f = data <$> None) as [=].
      rewrite <- Hf, <- Hnone. by rewrite !chunk_file_contents, Hsame.
    + split; [done|]. rewrite Hrun in Hf.
      assert (Hn : chunk_file (disk w2) (chunkDir m (align m req))
                     (chunkName (align m req)) = None).
      { assert (data <$> chunk_file (disk w2) (chunkDir m (align m req))
                  (chunkName (align m req)) = None) as Hd
          by (by rewrite chunk_file_contents, Hw2, <- chunk_file_contents, Hnone).
        by destruct (chunk_file (disk w2) _ _). }
      exact (storeChunkToDisk_created _ _ _ _ _ _ _ Hn Hst Hf Hwe).
Qed.

End WriteOnce.

(** ** Errors on the channel *)

Section Errors.

Implicit Types (m : ChunkManager) (fl : Faults) (req : ChunkRequest) (w : World).

(** Whatever the disk does, an error message on the channel is the
    response of the gateway. *)
Lemma error_messages_from_gateway m fl req w r :
  r ∈ messages (chan (RequestChunk m fl req w).2) → is_Some (Error r) →
  r = downloadManager m (calls w) (align m req).
Proof.
  destruct (decide (ChunkSize m = 0)) as [Hz|Hcs].
  { rewrite RequestChunk_zero_chunk by done. simpl. by intros ?%elem_of_nil. }
  destruct (loadChunkFromDisk m fl (align m req) (make_chan w)) as [[d|msg] w1] eqn:Hload.
  2: { rewrite (RequestChunk_load_panic _ _ _ _ _ _ Hcs Hload).
       destruct (loadChunkFromDisk_frame _ _ _ _ _ _ Hload) as (_ & Hchan & _).
       simpl in *. rewrite Hchan. simpl. by intros ?%elem_of_nil. }
  destruct (RequestChunk_trace _ _ _ _ _ _ Hcs Hload) as [_ Htrace].
  cbv zeta in Htrace.
  assert (Hdisk : ∀ tl, r ∈ messages (disk_events d ++ tl) → is_Some (Error r) →
                        r ∈ messages tl).
  { intros tl. rewrite messages_app. intros [Hr|Hr]%elem_of_app [e He]; [|done].
    destruct (messages_disk_events _ _ Hr) as [_ Hn]. congruence. }
  destruct (Error (downloadManager m (calls w) (align m req))) eqn:Hapi.
  - destruct Htrace as (_ & -> & _). intros Hr He.
    by apply Hdisk, list_elem_of_singleton in Hr.
  - destruct (slice _ _ _) as [b|msg]; destruct Htrace as (_ & -> & _); intros Hr He.
    + apply Hdisk in Hr; [|done]. apply list_elem_of_singleton in Hr as ->.
      by destruct He as [? [=]].
    + apply Hdisk in Hr; [|done]. by apply elem_of_nil in Hr.
Qed.

End Errors.

(** ** More on the disk read path *)

Section DiskReadMore.

Implicit Types (m : ChunkManager) (fl : Faults) (req : ChunkRequest) (w : World).

Ltac run_load :=
  unfold loadChunkFromDisk, os_Open, File_ReadAt, time_Now, os_Chtimes, lift;
  unfold mbind, M_bind, mret, M_ret; simpl.

(** Without the chunk file the lookup reports the open error of line 104
    and changes nothing, whatever the size. *)
Lemma loadChunkFromDisk_absent m fl req w :
  chunk_file (disk w) (chunkDir m req) (chunkName req) = None →
  loadChunkFromDisk m fl req w
  = (Ok {| Error := Some (Errorf "Could not open file %v" [ArgString (filename m req)]);
           Bytes := [] |}, w).
Proof.
  intros Hf. unfold loadChunkFromDisk, os_Open, mbind, M_bind. rewrite Hf.
  rewrite bool_decide_eq_false_2 by (by intros [? [=]]).
  by rewrite andb_false_r.
Qed.

(** The hit path in full: the response and the world it leaves. *)
Lemma loadChunkFromDisk_hit_run m fl req w f :
  chunk_file (disk w) (chunkDir m req) (chunkName req) = Some f →
  open_err fl = false → read_err fl = None →
  0 ≤ fOffset req < len (data f) → 0 < Size req ≤ max_alloc →
  ∃ w',
    loadChunkFromDisk m fl req w
    = (Ok {| Error := None;
             Bytes := take (Z.to_nat (Z.min (Size req) (len (data f) - fOffset req)))
                        (drop (Z.to_nat (fOffset req)) (data f))
                      ++ replicate
                           (Z.to_nat (Size req
                                      - Z.min (Size req) (len (data f) - fOffset req)))
                           x00 |}, w')
    ∧ chunk_file (disk w') (chunkDir m req) (chunkName req)
      = Some {| data := data f;
                mtime := if chtimes_err fl then mtime f else clock w + 1 |}
    ∧ clock w' = clock w + 2 ∧ calls w' = calls w ∧ chan w' = chan w.
Proof.
  intros Hf Hopen Hread Hoff Hsize. pose proof max_alloc_exact as Hexact.
  destruct (loadChunkFromDisk_returns m fl req w ltac:(lia)) as (r & w' & Hload).
  exists w'.
  assert (Herr : Error r = None).
  { revert Hload. run_load. rewrite Hf, Hopen, make_bytes_ok by lia. simpl. rewrite Hf.
    unfold read_at. rewrite Hread. destruct (Z.ltb_spec (fOffset req) 0); [lia|].
    rewrite len_replicate by lia.
    destruct (Z.ltb_spec 0 (Z.min (Size req) (Z.max 0 (len (data f) - fOffset req))));
      [|lia].
    assert (eof_or_nil (if Z.min (Size req) (Z.max 0 (len (data f) - fOffset req))
                           <? Size req then Some EOF else None) = true) as ->
      by (by destruct (_ <? _)).
    simpl. intros Hrun. repeat (case_match; simplify_eq/=); done. }
  destruct (loadChunkFromDisk_hit_bytes _ _ _ _ _ _ Hload Herr ltac:(lia))
    as (f' & Hf' & _ & Hbytes & _).
  rewrite Hf in Hf'. injection Hf' as <-. simpl in Hbytes.
  destruct (loadChunkFromDisk_frame _ _ _ _ _ _ Hload) as (Hcalls & Hchan & _).
  destruct r as [e b]. simpl in *. subst e b. split; [done|].
  split; [|split; [|done]].
  - revert Hload. run_load. rewrite Hf, Hopen, make_bytes_ok by lia. simpl. rewrite Hf.
    destruct (proj1 (chunk_file_Some _ _ _ _) Hf) as (entries & Hd & He).
    intros Hrun. repeat (case_match; simplify_eq/=); try done.
    all: unfold chunk_file; rewrite ?lookup_insert_eq, ?Hd; simpl;
      rewrite ?lookup_insert_eq, ?He; try done.
    all: by destruct f.
  - revert Hload. run_load. rewrite Hf, Hopen, make_bytes_ok by lia. simpl. rewrite Hf.
    intros Hrun. repeat (case_match; simplify_eq/=); try done; lia.
Qed.


(** X1: a disk hit returns exactly [Size] bytes.  With the chunk file in
    place, no open or read fault, an in-window offset inside the file and
    [0 < Size <= 2 ^ 48], the allocation limit of the read buffer, the lookup
    returns the file bytes from [fOffset] on,
    at most [Size] of them, followed by zero bytes up to [Size]; it keeps the
    bytes on disk and sets the file's modification time to the second clock
    reading, unless [os.Chtimes] failed. *)
Theorem disk_hit_response m fl req w f :
  chunk_file (disk w) (chunkDir m req) (chunkName req) = Some f →
  open_err fl = false → read_err fl = None →
  0 ≤ fOffset req < len (data f) → 0 < Size req ≤ max_alloc →
  let n := Z.min (Size req) (len (data f) - fOffset req) in
  let padded := take (Z.to_nat n) (drop (Z.to_nat (fOffset req)) (data f))
                ++ replicate (Z.to_nat (Size req - n)) x00 in
  ∃ w',
    loadChunkFromDisk m fl req w = (Ok {| Error := None; Bytes := padded |}, w')
    ∧ len padded = Size req
    ∧ chunk_file (disk w') (chunkDir m req) (chunkName req)
      = Some {| data := data f;
                mtime := if chtimes_err fl then mtime f else clock w + 1 |}
    ∧ contents (disk w') = contents (disk w).
Proof.
  intros Hf Hopen Hread Hoff Hsize. cbv zeta.
  destruct (loadChunkFromDisk_hit_run m fl req w f Hf Hopen Hread Hoff Hsize)
    as (w' & Hload & Hfile & _).
  exists w'. split; [done|].
  destruct (loadChunkFromDisk_frame _ _ _ _ _ _ Hload) as (_ & _ & Hdisk).
  split; [|done].
  unfold len in *. rewrite length_app, length_take, length_drop, length_replicate. lia.
Qed.

(** X2: when the cache answers.  Without open or read faults and for
    [0 <= Size <= 2 ^ 48], the allocation limit of the read buffer, the
    lookup returns, and it is a hit exactly when [Size] is positive, the chunk
    file exists and [fOffset] lies inside it. *)
Theorem disk_hit_iff m fl req w :
  open_err fl = false → read_err fl = None → 0 ≤ Size req ≤ max_alloc →
  ∃ r w',
    loadChunkFromDisk m fl req w = (Ok r, w')
    ∧ (Error r = None ↔
       0 < Size req
       ∧ ∃ f, chunk_file (disk w) (chunkDir m req) (chunkName req) = Some f
              ∧ 0 ≤ fOffset req < len (data f)).
Proof.
  intros Hopen Hread Hsize.
  destruct (loadChunkFromDisk_returns m fl req w Hsize) as (r & w' & Hload).
  exists r, w'. split; [done|]. split.
  - intros Herr.
    destruct (loadChunkFromDisk_hit _ _ _ _ _ _ Hload Herr) as (f & Hf & Hoff & Hpos & _).
    by eauto.
  - intros (Hpos & f & Hf & Hoff).
    destruct (loadChunkFromDisk_hit_run m fl req w f Hf Hopen Hread Hoff ltac:(lia))
      as (w'' & Hload' & _).
    rewrite Hload in Hload'. by injection Hload' as -> _.
Qed.

(** X3: a read that fails is a miss, even after some bytes.  For
    [0 <= Size <= 2 ^ 48], the allocation limit of the read buffer: when the
    read of the opened chunk file stops with an error other than end-of-file
    before it has all the bytes it could get, the lookup reports an error and
    leaves the world as it was. *)
Theorem read_failure_is_miss m fl req w f k :
  chunk_file (disk w) (chunkDir m req) (chunkName req) = Some f →
  0 ≤ Size req ≤ max_alloc →
  read_err fl = Some k →
  k < Z.min (Size req) (Z.max 0 (len (data f) - fOffset req)) →
  ∃ e, loadChunkFromDisk m fl req w = (Ok {| Error := Some e; Bytes := [] |}, w).
Proof.
  intros Hf Hsize Hread Hk. run_load. rewrite Hf, make_bytes_ok by done.
  destruct (open_err fl); simpl; [by eexists|]. rewrite Hf.
  unfold read_at. rewrite Hread, len_replicate by lia.
  destruct (Z.ltb_spec (fOffset req) 0); simpl; [by eexists|].
  destruct (Z.ltb_spec k (Z.min (Size req) (Z.max 0 (len (data f) - fOffset req))));
    [|lia].
  simpl. rewrite andb_false_r. by eexists.
Qed.

(** The disk lookup leaves every other chunk file as it is, modification
    time included. *)
Lemma loadChunkFromDisk_others m fl req w o w' dir name :
  loadChunkFromDisk m fl req w = (o, w') →
  (dir, name) ≠ (chunkDir m req, chunkName req) →
  chunk_file (disk w') dir name = chunk_file (disk w) dir name.
Proof.
  run_load. intros Hrun Hne.
  assert (Hput : ∀ (d : gmap string (gmap string File)) entries g,
            d !! chunkDir m req = Some entries →
            chunk_file (<[chunkDir m req := <[chunkName req := g]> entries]> d) dir name
            = chunk_file d dir name).
  { intros d entries g Hd. unfold chunk_file.
    destruct (decide (chunkDir m req = dir)) as [<-|].
    - rewrite lookup_insert_eq, Hd. simpl. rewrite lookup_insert_ne; [done|congruence].
    - by rewrite lookup_insert_ne. }
  repeat (case_match; simplify_eq/=); try done.
  all: by erewrite Hput.
Qed.

(** What the lookup answers depends on the open and read faults only. *)
Lemma loadChunkFromDisk_faults m fl fl' req w :
  open_err fl = open_err fl' → read_err fl = read_err fl' →
  (loadChunkFromDisk m fl req w).1 = (loadChunkFromDisk m fl' req w).1.
Proof.
  intros Hopen Hread. run_load. unfold read_at. rewrite Hopen, Hread.
  repeat (case_match; simplify_eq/=); done.
Qed.

End DiskReadMore.

(** ** More on the goroutine *)

Section RequestMore.

Implicit Types (m : ChunkManager) (fl : Faults) (req : ChunkRequest) (w : World).

(** The store step on a key without a file, when no system call fails:
    the file is there afterwards with the bytes of the response. *)
Lemma storeChunkToDisk_fresh m fl req res w :
  chunk_file (disk w) (chunkDir m req) (chunkName req) = None →
  stat_dir_err fl = false → mkdir_err fl = false →
  stat_file_err fl = false → write_err fl = None →
  ∃ w', storeChunkToDisk m fl req res w = (Ok tt, w')
        ∧ chunk_file (disk w') (chunkDir m req) (chunkName req)
          = Some {| data := Bytes res; mtime := clock w |}
        ∧ clock w' = clock w ∧ calls w' = calls w ∧ chan w' = chan w.
Proof.
  intros Hf Hsd Hmk Hsf Hwe.
  unfold storeChunkToDisk, os_Stat_dir, os_Stat_file, os_MkdirAll, ioutil_WriteFile.
  unfold mbind, M_bind, mret, M_ret, chunk_file in *. simpl.
  rewrite Hsd, Hmk, Hsf, Hwe.
  destruct (disk w !! chunkDir m req) as [entries|] eqn:Hd; simpl in *.
  all: repeat first [rewrite Hd | rewrite Hf | rewrite lookup_insert_eq
                    | rewrite lookup_empty | progress simpl].
  all: eexists; (split; [reflexivity|]); simpl.
  all: by repeat first [rewrite lookup_insert_eq | progress simpl].
Qed.

(** X4: the stream protocol holds on every run, panics included: the
    channel carries at most two messages and then exactly one close. *)
Theorem stream_closed_once m fl req w :
  ∃ msgs, chan (RequestChunk m fl req w).2 = (Send <$> msgs) ++ [Close]
          ∧ messages (chan (RequestChunk m fl req w).2) = msgs
          ∧ (length msgs ≤ 2)%nat.
Proof.
  destruct (decide (ChunkSize m = 0)) as [Hz|Hcs].
  { rewrite RequestChunk_zero_chunk by done. exists []. simpl. split; [done|].
    split; [done|lia]. }
  destruct (loadChunkFromDisk m fl (align m req) (make_chan w)) as [[d|msg] w1] eqn:Hload.
  2: { rewrite (RequestChunk_load_panic _ _ _ _ _ _ Hcs Hload).
       destruct (loadChunkFromDisk_frame _ _ _ _ _ _ Hload) as (_ & Hchan & _).
       simpl in *. rewrite Hchan. exists []. simpl. split; [done|]. split; [done|lia]. }
  destruct (RequestChunk_trace _ _ _ _ _ _ Hcs Hload) as [_ Htrace].
  cbv zeta in Htrace. unfold disk_events in Htrace.
  destruct (Error (downloadManager m (calls w) (align m req))).
  - destruct Htrace as (_ & -> & _).
    destruct (Error d); [eexists [_]|eexists [_; _]]; simpl;
      (split; [done|]; split; [done|lia]).
  - destruct (slice _ _ _); destruct Htrace as (_ & -> & _).
    + destruct (Error d); [eexists [_]|eexists [_; _]]; simpl;
        (split; [done|]; split; [done|lia]).
    + destruct (Error d); [exists []|eexists [_]]; simpl;
        (split; [done|]; split; [done|lia]).
Qed.

(** X5: the gateway is called at most once per request, with the aligned
    request; it is called whenever the chunk size is not zero and either the
    size is between 0 and [2 ^ 48], the allocation limit of the read buffer,
    or no chunk file is cached, whatever the disk answers. *)
Theorem gateway_called_once m fl req w :
  (calls (RequestChunk m fl req w).2 = calls w
   ∨ calls (RequestChunk m fl req w).2 = calls w ++ [align m req])
  ∧ (ChunkSize m ≠ 0 →
     0 ≤ Size req ≤ max_alloc
     ∨ chunk_file (disk w) (chunkDir m (align m req)) (chunkName (align m req)) = None →
     calls (RequestChunk m fl req w).2 = calls w ++ [align m req]).
Proof.
  split.
  - destruct (decide (ChunkSize m = 0)) as [Hz|Hcs].
    { left. by rewrite RequestChunk_zero_chunk. }
    destruct (loadChunkFromDisk m fl (align m req) (make_chan w))
      as [[d|msg] w1] eqn:Hload.
    + right. by destruct (RequestChunk_trace _ _ _ _ _ _ Hcs Hload) as [Hc _].
    + left. rewrite (RequestChunk_load_panic _ _ _ _ _ _ Hcs Hload).
      by destruct (loadChunkFromDisk_frame _ _ _ _ _ _ Hload) as (Hc & _).
  - intros Hcs [Hsize|Hnone].
    + destruct (loadChunkFromDisk_returns m fl (align m req) (make_chan w))
        as (d & w1 & Hload); [done|].
      by destruct (RequestChunk_trace _ _ _ _ _ _ Hcs Hload) as [Hc _].
    + pose proof (loadChunkFromDisk_absent m fl (align m req) (make_chan w) Hnone)
        as Hload.
      by destruct (RequestChunk_trace _ _ _ _ _ _ Hcs Hload) as [Hc _].
Qed.

(** X6: a request touches no chunk file but its own: every other file, of
    this object or another, keeps its bytes and its modification time, and no
    other file appears. *)
Theorem other_chunks_untouched m fl req w dir name :
  (dir, name) ≠ (chunkDir m (align m req), chunkName (align m req)) →
  chunk_file (disk (RequestChunk m fl req w).2) dir name = chunk_file (disk w) dir name.
Proof.
  intros Hne.
  destruct (decide (ChunkSize m = 0)) as [Hz|Hcs].
  { by rewrite RequestChunk_zero_chunk. }
  destruct (loadChunkFromDisk m fl (align m req) (make_chan w)) as [[d|msg] w1] eqn:Hload.
  2: { rewrite (RequestChunk_load_panic _ _ _ _ _ _ Hcs Hload). simpl.
       by rewrite (loadChunkFromDisk_others _ _ _ _ _ _ _ _ Hload Hne). }
  pose proof (loadChunkFromDisk_others _ _ _ _ _ _ _ _ Hload Hne) as Hkeep.
  simpl in Hkeep.
  destruct (RequestChunk_trace _ _ _ _ _ _ Hcs Hload) as [_ Htrace].
  cbv zeta in Htrace.
  destruct (Error (downloadManager m (calls w) (align m req))).
  { destruct Htrace as (_ & _ & ->). done. }
  destruct (slice _ _ _).
  - destruct Htrace as (_ & _ & w2 & w3 & Hw2 & Hst & ->).
    rewrite (storeChunkToDisk_others _ _ _ _ _ _ _ _ Hst Hne). by rewrite Hw2.
  - destruct Htrace as (_ & _ & ->). done.
Qed.


(** X7: what the store step writes, the disk lookup reads back.  After
    the store step on a key without a file, with no failing system call, a
    lookup for a range inside the stored bytes, of a size within the
    allocation limit [2 ^ 48] as the size of a range of a slice is, is a hit
    and returns exactly that range. *)
Theorem store_then_load m fl fl' req res w :
  chunk_file (disk w) (chunkDir m req) (chunkName req) = None →
  stat_dir_err fl = false → mkdir_err fl = false →
  stat_file_err fl = false → write_err fl = None →
  open_err fl' = false → read_err fl' = None →
  0 ≤ fOffset req → 0 < Size req ≤ max_alloc →
  fOffset req + Size req ≤ len (Bytes res) → len (Bytes res) ≤ 2 ^ 53 →
  (loadChunkFromDisk m fl' req (storeChunkToDisk m fl req res w).2).1
  = Ok {| Error := None;
          Bytes := take (Z.to_nat (Size req))
                     (drop (Z.to_nat (fOffset req)) (Bytes res)) |}.
Proof.
  intros Hf Hsd Hmk Hsf Hwe Hopen Hread Hoff Hsize Hin Hl.
  destruct (storeChunkToDisk_fresh m fl req res w Hf Hsd Hmk Hsf Hwe)
    as (w' & Hst & Hf' & _).
  rewrite Hst. simpl.
  destruct (loadChunkFromDisk_hit_run m fl' req w' _ Hf' Hopen Hread)
    as (w'' & Hload & _); simpl; [lia..|].
  rewrite Hload. simpl.
  rewrite Z.min_l by lia. rewrite Z.sub_diag. simpl. by rewrite app_nil_r.
Qed.

(** A miss, a gateway success and a store step without failures leave a
    chunk file with the whole reply. *)
Lemma RequestChunk_stores_reply m fl req w :
  ChunkSize m ≠ 0 →
  0 ≤ Offset req ≤ max_int64 → 0 ≤ Size req →
  Z.rem (Offset req) (ChunkSize m) + Size req ≤ max_int64 →
  chunk_file (disk w) (chunkDir m (align m req)) (chunkName (align m req)) = None →
  Error (downloadManager m (calls w) (align m req)) = None →
  len (Bytes (downloadManager m (calls w) (align m req))) ≤ 2 ^ 53 →
  stat_dir_err fl = false → mkdir_err fl = false →
  stat_file_err fl = false → write_err fl = None →
  chunk_file (disk (RequestChunk m fl req w).2)
    (chunkDir m (align m req)) (chunkName (align m req))
  = Some {| data := Bytes (downloadManager m (calls w) (align m req));
            mtime := clock w |}.
Proof.
  intros Hcs Hoff Hsize Hsum Hf Hapi Hl Hsd Hmk Hsf Hwe.
  pose proof (loadChunkFromDisk_absent m fl (align m req) (make_chan w) Hf) as Hload.
  rewrite (RequestChunk_after_disk _ _ _ _ _ _ Hcs Hload). cbv zeta. rewrite Hapi.
  pose proof (len_nonneg (Bytes (downloadManager m (calls w) (align m req)))) as Hl0.
  destruct (subrange_bounds m req _ Hoff Hsize Hsum (conj Hl0 Hl)) as [-> ->].
  destruct (align_fields m req Hoff) as (Hfo & _ & Hfo'). rewrite Hfo in Hfo'.
  match goal with
  | |- context [slice ?b ?lo ?hi] =>
    destruct (slice_ok b lo hi) as [-> _]; [lia..|]
  end.
  match goal with
  | |- context [storeChunkToDisk ?m ?fl ?r ?a ?w0] =>
    destruct (storeChunkToDisk_fresh m fl r a w0) as (w3 & -> & Hf3 & _); try done
  end.
Qed.

(** X8: a first fetch is cached whole.  When no chunk file is cached, the
    gateway succeeds and no system call of the store step fails, the request
    sends one message, the requested sub-range, and leaves a chunk file
    holding the whole reply of the gateway, not the sub-range that was sent. *)
Theorem first_fetch_is_cached m fl req w :
  ChunkSize m ≠ 0 →
  0 ≤ Offset req ≤ max_int64 → 0 ≤ Size req →
  Z.rem (Offset req) (ChunkSize m) + Size req ≤ max_int64 →
  chunk_file (disk w) (chunkDir m (align m req)) (chunkName (align m req)) = None →
  Error (downloadManager m (calls w) (align m req)) = None →
  len (Bytes (downloadManager m (calls w) (align m req))) ≤ 2 ^ 53 →
  stat_dir_err fl = false → mkdir_err fl = false →
  stat_file_err fl = false → write_err fl = None →
  let bs := Bytes (downloadManager m (calls w) (align m req)) in
  let s := Z.min (Z.rem (Offset req) (ChunkSize m)) (len bs) in
  let e := Z.min (Z.rem (Offset req) (ChunkSize m) + Size req) (len bs) in
  chan (RequestChunk m fl req w).2
  = [Send {| Error := None;
             Bytes := take (Z.to_nat (e - s)) (drop (Z.to_nat s) bs) |}; Close]
  ∧ chunk_file (disk (RequestChunk m fl req w).2)
      (chunkDir m (align m req)) (chunkName (align m req))
    = Some {| data := bs; mtime := clock w |}.
Proof.
  intros Hcs Hoff Hsize Hsum Hf Hapi Hl Hsd Hmk Hsf Hwe. cbv zeta.
  split; [|by apply RequestChunk_stores_reply].
  pose proof (loadChunkFromDisk_absent m fl (align m req) (make_chan w) Hf) as Hload.
  destruct (RequestChunk_trace _ _ _ _ _ _ Hcs Hload) as [_ Htrace].
  cbv zeta in Htrace. rewrite Hapi in Htrace.
  pose proof (len_nonneg (Bytes (downloadManager m (calls w) (align m req)))) as Hl0.
  destruct (subrange_bounds m req _ Hoff Hsize Hsum (conj Hl0 Hl)) as [Hs He].
  destruct (align_fields m req Hoff) as (Hfo & _ & Hfo'). rewrite Hfo in Hfo'.
  cbv zeta in Hs, He. rewrite Hs, He in Htrace.
  match type of Htrace with
  | match slice ?b ?lo ?hi with _ => _ end =>
    destruct (slice_ok b lo hi) as [Hslice _]; [lia..|]
  end.
  rewrite Hslice in Htrace. by destruct Htrace as (_ & -> & _).
Qed.

(** X9: the cache serves what the gateway served.  On a key without a
    file, with a gateway that answers both calls with the same bytes and a
    range inside them, of a size within the allocation limit [2 ^ 48] as the
    size of a range of a slice is, the first request sends the range once and
    the same request issued again sends it twice: from the disk, then from
    the gateway. *)
Theorem second_request_hits m fl1 fl2 req w (bs : list byte) :
  ChunkSize m ≠ 0 →
  0 ≤ Offset req ≤ max_int64 → 0 < Size req ≤ max_alloc →
  Z.rem (Offset req) (ChunkSize m) + Size req ≤ len bs → len bs ≤ 2 ^ 53 →
  chunk_file (disk w) (chunkDir m (align m req)) (chunkName (align m req)) = None →
  downloadManager m (calls w) (align m req) = {| Error := None; Bytes := bs |} →
  downloadManager m (calls w ++ [align m req]) (align m req)
  = {| Error := None; Bytes := bs |} →
  stat_dir_err fl1 = false → mkdir_err fl1 = false →
  stat_file_err fl1 = false → write_err fl1 = None →
  open_err fl2 = false → read_err fl2 = None →
  let sub := {| Error := None;
                Bytes := take (Z.to_nat (Size req))
                           (drop (Z.to_nat (Z.rem (Offset req) (ChunkSize m))) bs) |} in
  chan (RequestChunk m fl1 req w).2 = [Send sub; Close]
  ∧ chan (RequestChunk m fl2 req (RequestChunk m fl1 req w).2).2
    = [Send sub; Send sub; Close].
Proof.
  intros Hcs Hoff Hsize Hin Hl Hf Hdm1 Hdm2 Hsd Hmk Hsf Hwe Hopen Hread.
  assert (Hsum : Z.rem (Offset req) (ChunkSize m) + Size req ≤ max_int64)
    by (unfold max_int64; lia).
  destruct (align_fields m req Hoff) as (Hfo & _ & Hfo'). rewrite Hfo in Hfo'.
  destruct (subrange_bounds m req (len bs) Hoff ltac:(lia) Hsum ltac:(lia)) as [Hs He].
  cbv zeta in Hs, He. rewrite Z.min_l in Hs, He by lia.
  destruct (slice_ok bs (Z.rem (Offset req) (ChunkSize m))
              (Z.rem (Offset req) (ChunkSize m) + Size req)) as [Hslice _]; [lia..|].
  replace (Z.rem (Offset req) (ChunkSize m) + Size req
           - Z.rem (Offset req) (ChunkSize m)) with (Size req) in Hslice by lia.
  (* the first request *)
  pose proof (loadChunkFromDisk_absent m fl1 (align m req) (make_chan w) Hf) as Hload1.
  destruct (RequestChunk_trace _ _ _ _ _ _ Hcs Hload1) as [Hcalls1 Htrace1].
  cbv zeta in Htrace1. rewrite Hdm1 in Htrace1. simpl in Htrace1.
  rewrite Hs, He, Hslice in Htrace1. destruct Htrace1 as (_ & Hchan1 & _).
  pose proof (RequestChunk_stores_reply m fl1 req w Hcs Hoff ltac:(lia) Hsum Hf) as Hf1.
  rewrite Hdm1 in Hf1. simpl in Hf1.
  specialize (Hf1 eq_refl Hl Hsd Hmk Hsf Hwe).
  cbv zeta. split; [exact Hchan1|].
  (* the second request *)
  set (w1 := (RequestChunk m fl1 req w).2) in *.
  destruct (loadChunkFromDisk_hit_run m fl2 (align m req) (make_chan w1) _ Hf1 Hopen Hread)
    as (w' & Hload2 & _); simpl; [lia..|].
  destruct (RequestChunk_trace _ _ _ _ _ _ Hcs Hload2) as [_ Htrace2].
  cbv zeta in Htrace2. rewrite Hcalls1, Hdm2 in Htrace2. simpl in Htrace2.
  rewrite Hs, He, Hslice in Htrace2. destruct Htrace2 as (_ & -> & _).
  unfold disk_events. simpl.
  rewrite Z.min_l by lia. rewrite Z.sub_diag. simpl. by rewrite app_nil_r.
Qed.


(** X10: a request for zero bytes never hits the cache and, when the
    gateway succeeds, gets one empty message. *)
Theorem zero_size_request m fl req w :
  ChunkSize m ≠ 0 → 0 ≤ Offset req ≤ max_int64 → Size req = 0 →
  Error (downloadManager m (calls w) (align m req)) = None →
  len (Bytes (downloadManager m (calls w) (align m req))) ≤ 2 ^ 53 →
  (∃ e, loadChunkFromDisk m fl (align m req) w
        = (Ok {| Error := Some e; Bytes := [] |}, w))
  ∧ (RequestChunk m fl req w).1 = Ok (align m req)
  ∧ chan (RequestChunk m fl req w).2 = [Send {| Error := None; Bytes := [] |}; Close].
Proof.
  intros Hcs Hoff Hsize Hapi Hl.
  assert (Hmiss : ∀ w0, ∃ e, loadChunkFromDisk m fl (align m req) w0
                             = (Ok {| Error := Some e; Bytes := [] |}, w0)).
  { intros w0.
    destruct (loadChunkFromDisk_returns m fl (align m req) w0) as (r & w' & Hload);
      [unfold max_alloc; simpl; lia|].
    destruct (Error r) as [e|] eqn:He.
    - destruct (loadChunkFromDisk_miss _ _ _ _ _ _ Hload) as [-> Hb]; [by rewrite He|].
      exists e. rewrite Hload. destruct r. simpl in *. by subst.
    - destruct (loadChunkFromDisk_hit _ _ _ _ _ _ Hload He) as (f & _ & _ & Hpos & _).
      simpl in Hpos. lia. }
  split; [apply Hmiss|].
  destruct (Hmiss (make_chan w)) as [e Hload].
  destruct (RequestChunk_trace _ _ _ _ _ _ Hcs Hload) as [_ Htrace].
  cbv zeta in Htrace. rewrite Hapi in Htrace.
  pose proof (len_nonneg (Bytes (downloadManager m (calls w) (align m req)))) as Hl0.
  pose proof (rem_nonneg_le (Offset req) (ChunkSize m) (proj1 Hoff)) as Hrem.
  destruct (subrange_bounds m req _ Hoff ltac:(lia) ltac:(lia) (conj Hl0 Hl))
    as [Hs He].
  cbv zeta in Hs, He. rewrite Hs, He, Hsize, Z.add_0_r in Htrace.
  match type of Htrace with
  | match slice ?b ?lo ?hi with _ => _ end =>
    destruct (slice_ok b lo hi) as [Hslice _]; [lia..|]
  end.
  rewrite Hslice, Z.sub_diag in Htrace. by destruct Htrace as (-> & -> & _).
Qed.

Lemma float64_neg z : z < 0 → float64 z < 0.
Proof.
  intros Hz. unfold float64.
  destruct (Z.leb_spec (Z.log2 (Z.abs z) + 1) 53) as [|Hbits]; [done|].
  set (sh := Z.log2 (Z.abs z) + 1 - 53).
  assert (Hsh : 0 ≤ sh) by (unfold sh; lia).
  assert (Hq : 0 ≤ Z.shiftr (Z.abs z) sh) by (apply Z.shiftr_nonneg; lia).
  rewrite (Z.sgn_neg z) by lia. rewrite Z.shiftl_mul_pow2 by lia.
  assert (Hp : 0 < 2 ^ sh) by (apply Z.pow_pos_nonneg; lia).
  assert (Hq' : 0 < Z.shiftr (Z.abs z) sh).
  { rewrite Z.shiftr_div_pow2 by lia. apply Z.div_str_pos. split; [done|].
    assert (0 < Z.abs z) by lia.
    pose proof (Z.log2_spec (Z.abs z) ltac:(lia)) as [Hlo _].
    assert (2 ^ sh ≤ 2 ^ Z.log2 (Z.abs z)) by (apply Z.pow_le_mono_r; unfold sh; lia).
    lia. }
  destruct (_ || _); nia.
Qed.

Lemma slice_negative {A} (b : list A) lo hi :
  lo < 0 → slice b lo hi = Panic "slice bounds out of range".
Proof. intros Hlo. unfold slice. by destruct (Z.leb_spec 0 lo); [lia|]. Qed.

(** X11: a negative offset that is not a multiple of the chunk size never
    yields bytes.  Go's [%] makes [fOffset] negative: the disk lookup cannot
    hit, and a gateway success ends in a slice panic, so a message on the
    channel, if any, is an error of the gateway. *)
Theorem negative_offset_no_bytes m fl req w :
  ChunkSize m ≠ 0 → Z.rem (Offset req) (ChunkSize m) < 0 →
  (∀ r, r ∈ messages (chan (RequestChunk m fl req w).2) →
        is_Some (Error r) ∧ r = downloadManager m (calls w) (align m req))
  ∧ (Error (downloadManager m (calls w) (align m req)) = None →
     chan (RequestChunk m fl req w).2 = [Close]
     ∧ ∃ msg, (RequestChunk m fl req w).1 = Panic msg).
Proof.
  intros Hcs Hneg.
  destruct (loadChunkFromDisk m fl (align m req) (make_chan w)) as [[d|msg] w1] eqn:Hload.
  2: { rewrite (RequestChunk_load_panic _ _ _ _ _ _ Hcs Hload).
       destruct (loadChunkFromDisk_frame _ _ _ _ _ _ Hload) as (_ & Hchan & _).
       simpl in *. rewrite Hchan. simpl. split; [by intros r ?%elem_of_nil|by eauto]. }
  assert (Hd : is_Some (Error d)).
  { destruct (Error d) eqn:He; [by eauto|].
    destruct (loadChunkFromDisk_hit _ _ _ _ _ _ Hload He) as (f & _ & Hoff & _).
    simpl in Hoff. lia. }
  destruct (RequestChunk_after_miss _ _ _ _ _ _ Hcs Hload Hd) as [_ Hchan].
  destruct (RequestChunk_trace _ _ _ _ _ _ Hcs Hload) as [_ Htrace].
  cbv zeta in Hchan, Htrace.
  destruct (Error (downloadManager m (calls w) (align m req))) eqn:Hapi.
  - rewrite Hchan. simpl. split; [|done].
    intros r ->%list_elem_of_singleton. by rewrite Hapi.
  - assert (Hs : sOffset_of (align m req)
                   (len (Bytes (downloadManager m (calls w) (align m req)))) < 0).
    { unfold sOffset_of, math_Min, int64_of_float. simpl.
      pose proof (float64_neg _ Hneg).
      destruct (_ && _); [lia|]. unfold min_int64. lia. }
    rewrite (slice_negative _ _ _ Hs) in Hchan, Htrace. rewrite Hchan. simpl.
    split; [by intros r ?%elem_of_nil|]. intros _. split; [done|].
    destruct Htrace as (-> & _). by eauto.
Qed.

Lemma Itoa_inj z1 z2 : Itoa z1 = Itoa z2 → z1 = z2.
Proof.
  unfold Itoa. intros H.
  assert (Hnorm : ∀ z, Z.to_int z = Decimal.norm (Z.to_int z)).
  { intros z. rewrite <- DecimalZ.to_of. by rewrite DecimalZ.of_to. }
  assert (Hnn : ∀ z, Z.to_int z ≠ Decimal.Pos Decimal.Nil
                     ∧ Z.to_int z ≠ Decimal.Neg Decimal.Nil).
  { intros z. rewrite Hnorm.
    pose proof (DecimalFacts.abs_norm (Z.to_int z)) as Habs.
    pose proof (DecimalFacts.unorm_nonnil (Decimal.abs (Z.to_int z))) as Hnil.
    rewrite <- Habs in Hnil.
    split; intros E; rewrite E in Hnil; by apply Hnil. }
  apply DecimalZ.to_int_inj.
  destruct (Hnn z1) as [? ?], (Hnn z2) as [? ?].
  assert (Some (Z.to_int z1) = Some (Z.to_int z2)) as [=]; [|done].
  rewrite <- (NilZero.isi (Z.to_int z1)), <- (NilZero.isi (Z.to_int z2)) by done.
  by rewrite H.
Qed.

(** X12: the name of the chunk file identifies the window.  For a positive
    chunk size, two offsets that are not negative lead to the same file name
    exactly when they lie in the same window. *)
Theorem chunk_name_identifies_window m req1 req2 :
  0 < ChunkSize m →
  0 ≤ Offset req1 ≤ max_int64 → 0 ≤ Offset req2 ≤ max_int64 →
  chunkName (align m req1) = chunkName (align m req2)
  ↔ Offset req1 / ChunkSize m = Offset req2 / ChunkSize m.
Proof.
  intros Hcs H1 H2.
  destruct (align_fields m req1 H1) as (_ & Hos1 & _).
  destruct (align_fields m req2 H2) as (_ & Hos2 & _).
  rewrite Z.rem_mod_nonneg in Hos1, Hos2 by lia.
  pose proof (Z.div_mod (Offset req1) (ChunkSize m) ltac:(lia)) as Hd1.
  pose proof (Z.div_mod (Offset req2) (ChunkSize m) ltac:(lia)) as Hd2.
  unfold chunkName. rewrite Hos1, Hos2. split.
  - intros H%Itoa_inj. nia.
  - intros H. f_equal.
    assert (ChunkSize m * (Offset req1 / ChunkSize m)
            = ChunkSize m * (Offset req2 / ChunkSize m)) by (by rewrite H).
    lia.
Qed.

(** X13: failures of the cache are invisible on the channel.  Two runs
    whose faults agree on [os.Open] and [ReadAt] end alike, send the same
    messages and call the gateway alike, whatever [os.Chtimes], [os.Stat],
    [os.MkdirAll] and [ioutil.WriteFile] do. *)
Theorem cache_write_faults_invisible m fl fl' req w :
  open_err fl = open_err fl' → read_err fl = read_err fl' →
  (RequestChunk m fl req w).1 = (RequestChunk m fl' req w).1
  ∧ chan (RequestChunk m fl req w).2 = chan (RequestChunk m fl' req w).2
  ∧ calls (RequestChunk m fl req w).2 = calls (RequestChunk m fl' req w).2.
Proof.
  intros Hopen Hread.
  destruct (decide (ChunkSize m = 0)) as [Hz|Hcs].
  { by rewrite !RequestChunk_zero_chunk. }
  pose proof (loadChunkFromDisk_faults m fl fl' (align m req) (make_chan w) Hopen Hread)
    as Hsame.
  destruct (loadChunkFromDisk m fl (align m req) (make_chan w)) as [o w1] eqn:Hload.
  destruct (loadChunkFromDisk m fl' (align m req) (make_chan w)) as [o' w1'] eqn:Hload'.
  simpl in Hsame. subst o'.
  destruct (loadChunkFromDisk_frame _ _ _ _ _ _ Hload) as (Hc & Hch & _).
  destruct (loadChunkFromDisk_frame _ _ _ _ _ _ Hload') as (Hc' & Hch' & _).
  destruct o as [d|msg].
  - destruct (RequestChunk_trace _ _ _ _ _ _ Hcs Hload) as [Hcalls Htrace].
    destruct (RequestChunk_trace _ _ _ _ _ _ Hcs Hload') as [Hcalls' Htrace'].
    cbv zeta in *. rewrite Hcalls, Hcalls'.
    destruct (Error (downloadManager m (calls w) (align m req))).
    + destruct Htrace as (-> & -> & _), Htrace' as (-> & -> & _). done.
    + destruct (slice _ _ _).
      * destruct Htrace as (-> & -> & _), Htrace' as (-> & -> & _). done.
      * destruct Htrace as (-> & -> & _), Htrace' as (-> & -> & _). done.
  - rewrite (RequestChunk_load_panic _ _ _ _ _ _ Hcs Hload).
    rewrite (RequestChunk_load_panic _ _ _ _ _ _ Hcs Hload'). simpl.
    by rewrite Hc, Hc', Hch, Hch'.
Qed.

(** X14: the derived fields of the incoming request are overwritten, not
    read: two requests with the same object, offset, size and preload flag
    give the same run, so a request can be issued again after a run has
    written its fields. *)
Theorem derived_fields_ignored m fl req req' w :
  Object req' = Object req → Offset req' = Offset req →
  Size req' = Size req → Preload req' = Preload req →
  align m req' = align m req
  ∧ align m (align m req) = align m req
  ∧ RequestChunk m fl req' w = RequestChunk m fl req w
  ∧ RequestChunk m fl (align m req) w = RequestChunk m fl req w.
Proof.
  intros Hobj Hoff Hsize Hpre.
  assert (Ha : align m req' = align m req) by (unfold align; by rewrite Hobj, Hoff, Hsize, Hpre).
  assert (Hb : align m (align m req) = align m req) by done.
  split; [done|]. split; [done|].
  unfold RequestChunk, goroutine. by rewrite Ha, Hb.
Qed.

(** X15: a negative size panics on a cached chunk.  When the chunk file can
    be opened, [make([]byte, req.Size)] panics for a negative size: the
    goroutine ends there, the channel is closed with no message, the gateway
    is not called and the disk is as before. *)
Theorem negative_size_panics_on_hit m fl req w f :
  ChunkSize m ≠ 0 → Size req < 0 → open_err fl = false →
  chunk_file (disk w) (chunkDir m (align m req)) (chunkName (align m req)) = Some f →
  RequestChunk m fl req w
  = (Panic "makeslice: len out of range", close (make_chan w)).
Proof.
  intros Hcs Hsize Hopen Hf.
  apply RequestChunk_load_panic; [done|].
  unfold loadChunkFromDisk, os_Open, lift, make_bytes, mbind, M_bind. simpl.
  rewrite Hf, Hopen. simpl.
  by destruct (Z.ltb_spec (Size req) 0); [|lia].
Qed.

End RequestMore.
End ChunkGo.

(** ** The claims on concrete inputs *)

(** Bounds on the fields of the sample managers and requests. *)
Ltac sample_bounds :=
  unfold in_range; repeat split; vm_compute; discriminate.

(** The construction contract on the empty path and on a valid pair. *)
Lemma NewChunkManager_fails_iff_witness :
  is_Some (NewChunkManager gateway_down EmptyString 4096).2
  ∧ (NewChunkManager gateway_down "/chunks" 8192).2 = None.
Proof.
  split.
  - exact (proj2 (proj1 (NewChunkManager_fails_iff gateway_down EmptyString 4096))
             (or_introl eq_refl)).
  - refine (proj1 (proj2 (proj2 (proj2 (proj2 (proj2
             (NewChunkManager_fails_iff gateway_down "/chunks" 0)))))
             _ 8192 _)).
    + discriminate.
    + apply elem_of_cons; right; apply elem_of_cons; by left.
Defined.

(** The spec's example window: chunk size 8192 and offset 9000. *)
Lemma align_window_witness :
  (4096 ≤ ChunkSize (manager 8192 gateway_down)
   ∧ (1024 | ChunkSize (manager 8192 gateway_down))
   ∧ in_range (ChunkSize (manager 8192 gateway_down))
   ∧ 0 ≤ Offset (request "obj" 9000 2000) ≤ max_int64)
  ∧ fOffset (align (manager 8192 gateway_down) (request "obj" 9000 2000)) = 808
  ∧ offsetStart (align (manager 8192 gateway_down) (request "obj" 9000 2000)) = 8192
  ∧ offsetEnd (align (manager 8192 gateway_down) (request "obj" 9000 2000)) = 16384.
Proof.
  assert (H1 : 4096 ≤ ChunkSize (manager 8192 gateway_down)) by sample_bounds.
  assert (H2 : (1024 | ChunkSize (manager 8192 gateway_down))) by (by exists 8).
  assert (H3 : in_range (ChunkSize (manager 8192 gateway_down))) by sample_bounds.
  assert (H4 : 0 ≤ Offset (request "obj" 9000 2000) ≤ max_int64) by sample_bounds.
  split; [exact (conj H1 (conj H2 (conj H3 H4)))|].
  destruct (align_window (manager 8192 gateway_down) (request "obj" 9000 2000)
              H1 H2 H3 H4) as (Hfo & Hos & _ & _ & _ & Hoe & _).
  split; [exact Hfo|]. split; [exact Hos|].
  apply Hoe. rewrite Hos. sample_bounds.
Defined.

(** C4 as stated fails at the largest offset: the window end wraps around. *)
Lemma align_offsetEnd_wraps :
  4096 ≤ ChunkSize failing_manager ∧ (1024 | ChunkSize failing_manager)
  ∧ 0 ≤ Offset (request "obj" max_int64 1) ≤ max_int64
  ∧ offsetStart (align failing_manager (request "obj" max_int64 1)) = 9223372036854771712
  ∧ offsetEnd (align failing_manager (request "obj" max_int64 1)) = -9223372036854775808
  ∧ offsetEnd (align failing_manager (request "obj" max_int64 1))
    ≠ offsetStart (align failing_manager (request "obj" max_int64 1))
      + ChunkSize failing_manager.
Proof.
  split; [sample_bounds|]. split; [by exists 4|].
  split; [sample_bounds|]. by vm_compute.
Qed.

(** Bounds and slice for a read of ten bytes at 4098 against five bytes. *)
Lemma subrange_in_bounds_witness :
  (0 ≤ Offset (request "obj" 4098 10) ≤ max_int64
   ∧ 0 ≤ Size (request "obj" 4098 10)
   ∧ Z.rem (Offset (request "obj" 4098 10)) (ChunkSize five_byte_manager)
     + Size (request "obj" 4098 10) ≤ max_int64
   ∧ len (counting_bytes 5) ≤ 2 ^ 53)
  ∧ sOffset_of (align five_byte_manager (request "obj" 4098 10)) 5 = 2
  ∧ eOffset_of (align five_byte_manager (request "obj" 4098 10)) 5 = 5
  ∧ ∃ b, slice (counting_bytes 5) 2 5 = Ok b ∧ len b = 3.
Proof.
  assert (H1 : 0 ≤ Offset (request "obj" 4098 10) ≤ max_int64) by sample_bounds.
  assert (H2 : 0 ≤ Size (request "obj" 4098 10)) by sample_bounds.
  assert (H3 : Z.rem (Offset (request "obj" 4098 10)) (ChunkSize five_byte_manager)
               + Size (request "obj" 4098 10) ≤ max_int64) by sample_bounds.
  assert (H4 : len (counting_bytes 5) ≤ 2 ^ 53) by sample_bounds.
  split; [exact (conj H1 (conj H2 (conj H3 H4)))|].
  destruct (subrange_in_bounds slashJoin five_byte_manager no_faults
              (request "obj" 4098 10) empty_world (counting_bytes 5) H1 H2 H3 H4)
    as (Hs & He & _ & _ & b & Hslice & Hlen & _).
  split; [exact Hs|]. split; [exact He|]. exists b. split; [exact Hslice|exact Hlen].
Defined.

(** C10 as stated fails when [fOffset + Size] overflows: the end bound is
    negative, below the start bound, and the slice panics. *)
Lemma subrange_overflow_out_of_bounds :
  0 ≤ Offset huge_request ∧ 0 ≤ Size huge_request ∧ in_range (Size huge_request)
  ∧ sOffset_of (align five_byte_manager huge_request) (len (counting_bytes 5)) = 1
  ∧ eOffset_of (align five_byte_manager huge_request) (len (counting_bytes 5))
    = min_int64
  ∧ ¬ (0 ≤ sOffset_of (align five_byte_manager huge_request) (len (counting_bytes 5))
         ≤ eOffset_of (align five_byte_manager huge_request) (len (counting_bytes 5)))
  ∧ slice (counting_bytes 5)
      (sOffset_of (align five_byte_manager huge_request) (len (counting_bytes 5)))
      (eOffset_of (align five_byte_manager huge_request) (len (counting_bytes 5)))
    = Panic "slice bounds out of range".
Proof.
  split; [sample_bounds|]. split; [sample_bounds|]. split; [sample_bounds|].
  split; [by vm_compute|]. split; [by vm_compute|]. split; [|by vm_compute].
  intros [_ H]. revert H. by vm_compute.
Qed.

(** The spec's example: of the 1808 bytes of the second chunk, the 1000
    bytes from 808 on are sent. *)
Lemma network_subrange_witness :
  (0 ≤ Offset example_request ≤ max_int64 ∧ 0 < Size example_request
   ∧ Z.rem (Offset example_request) (ChunkSize example_manager)
     + Size example_request ≤ max_int64
   ∧ len (counting_bytes 1808) ≤ 2 ^ 53
   ∧ calls (RequestChunk slashJoin example_manager no_faults example_request
              empty_world).2
     = calls empty_world ++ [align example_manager example_request]
   ∧ downloadManager example_manager (calls empty_world)
       (align example_manager example_request)
     = {| Error := None; Bytes := counting_bytes 1808 |})
  ∧ ∃ pre, chan (RequestChunk slashJoin example_manager no_faults example_request
                   empty_world).2
           = pre ++ [Send {| Error := None;
                             Bytes := take 1000 (drop 808 (counting_bytes 1808)) |};
                     Close].
Proof.
  assert (H1 : 0 ≤ Offset example_request ≤ max_int64) by sample_bounds.
  assert (H2 : 0 < Size example_request) by reflexivity.
  assert (H3 : Z.rem (Offset example_request) (ChunkSize example_manager)
               + Size example_request ≤ max_int64) by sample_bounds.
  assert (H4 : len (counting_bytes 1808) ≤ 2 ^ 53) by sample_bounds.
  assert (H5 : calls (RequestChunk slashJoin example_manager no_faults example_request
                        empty_world).2
               = calls empty_world ++ [align example_manager example_request])
    by (vm_compute; reflexivity).
  assert (H6 : downloadManager example_manager (calls empty_world)
                 (align example_manager example_request)
               = {| Error := None; Bytes := counting_bytes 1808 |}) by reflexivity.
  split; [exact (conj H1 (conj H2 (conj H3 (conj H4 (conj H5 H6)))))|].
  destruct (network_subrange slashJoin example_manager no_faults example_request
              empty_world _ (counting_bytes 1808) H1 H2 H3 H4 H5 H6)
    as (_ & pre & Hchan & _).
  exists pre. exact Hchan.
Defined.

(** C2 as stated fails when [fOffset + Size] overflows: the gateway is
    called and succeeds with five bytes, yet no message is sent, where the
    claim has the four bytes from index 1 on. *)
Lemma network_subrange_overflow_no_message :
  0 ≤ Offset huge_request ∧ 0 < Size huge_request
  ∧ calls (RequestChunk slashJoin five_byte_manager no_faults huge_request
             empty_world).2
    = [align five_byte_manager huge_request]
  ∧ downloadManager five_byte_manager [] (align five_byte_manager huge_request)
    = {| Error := None; Bytes := counting_bytes 5 |}
  ∧ Z.min (Z.rem (Offset huge_request) (ChunkSize five_byte_manager)) 5 = 1
  ∧ Z.min (Z.rem (Offset huge_request) (ChunkSize five_byte_manager)
           + Size huge_request) 5 = 5
  ∧ messages (chan (RequestChunk slashJoin five_byte_manager no_faults huge_request
                      empty_world).2) = []
  ∧ Send {| Error := None; Bytes := [x01; x02; x03; x04] |}
    ∉ chan (RequestChunk slashJoin five_byte_manager no_faults huge_request
              empty_world).2.
Proof.
  split; [sample_bounds|]. split; [reflexivity|].
  split; [by vm_compute|]. split; [reflexivity|].
  split; [by vm_compute|]. split; [by vm_compute|]. split; [by vm_compute|].
  assert (Hchan : chan (RequestChunk slashJoin five_byte_manager no_faults huge_request
                          empty_world).2 = [Close]) by (by vm_compute).
  rewrite Hchan. by intros [=]%list_elem_of_singleton.
Qed.

(** A hit on the cached short chunk and a gateway that succeeds: two
    messages and the close. *)
Lemma RequestChunk_shapes_witness :
  (ChunkSize short_chunk_manager ≠ 0
   ∧ 0 ≤ Offset (request "obj" 4096 5) ≤ max_int64
   ∧ 0 < Size (request "obj" 4096 5) ≤ max_alloc
   ∧ Z.rem (Offset (request "obj" 4096 5)) (ChunkSize short_chunk_manager)
     + Size (request "obj" 4096 5) ≤ max_int64
   ∧ len (Bytes (downloadManager short_chunk_manager (calls short_chunk_world)
                   (align short_chunk_manager (request "obj" 4096 5)))) ≤ 2 ^ 53)
  ∧ (RequestChunk slashJoin short_chunk_manager no_faults (request "obj" 4096 5)
       short_chunk_world).1
    = Ok (align short_chunk_manager (request "obj" 4096 5))
  ∧ (1 ≤ length (messages (chan (RequestChunk slashJoin short_chunk_manager no_faults
                                   (request "obj" 4096 5) short_chunk_world).2))
     ≤ 2)%nat.
Proof.
  assert (H1 : ChunkSize short_chunk_manager ≠ 0) by discriminate.
  assert (H2 : 0 ≤ Offset (request "obj" 4096 5) ≤ max_int64) by sample_bounds.
  assert (H3 : 0 < Size (request "obj" 4096 5) ≤ max_alloc)
    by (split; [reflexivity|sample_bounds]).
  assert (H4 : Z.rem (Offset (request "obj" 4096 5)) (ChunkSize short_chunk_manager)
               + Size (request "obj" 4096 5) ≤ max_int64) by sample_bounds.
  assert (H5 : len (Bytes (downloadManager short_chunk_manager
                             (calls short_chunk_world)
                             (align short_chunk_manager (request "obj" 4096 5))))
               ≤ 2 ^ 53) by sample_bounds.
  split; [exact (conj H1 (conj H2 (conj H3 (conj H4 H5))))|].
  destruct (RequestChunk_shapes slashJoin short_chunk_manager no_faults
              (request "obj" 4096 5) short_chunk_world H1 H2 H3 H4 (λ _, H5))
    as (d & w1 & _ & Hout & _ & Hlen).
  split; [exact Hout|exact Hlen].
Defined.

(** C3 as stated fails when [fOffset + Size] overflows: the disk misses,
    the gateway succeeds, and the channel is closed with no message on it. *)
Lemma RequestChunk_overflow_zero_messages :
  0 ≤ Offset huge_request ∧ 0 < Size huge_request
  ∧ (loadChunkFromDisk slashJoin five_byte_manager no_faults
       (align five_byte_manager huge_request) (make_chan empty_world)).1
    = Ok {| Error := Some (Errorf "Could not open file %v" [ArgString "/chunks/obj/0"]);
            Bytes := [] |}
  ∧ Error (downloadManager five_byte_manager (calls empty_world)
             (align five_byte_manager huge_request)) = None
  ∧ (RequestChunk slashJoin five_byte_manager no_faults huge_request empty_world).1
    = Panic "slice bounds out of range"
  ∧ chan (RequestChunk slashJoin five_byte_manager no_faults huge_request
            empty_world).2 = [Close]
  ∧ length (messages (chan (RequestChunk slashJoin five_byte_manager no_faults
                              huge_request empty_world).2)) = 0%nat.
Proof.
  split; [sample_bounds|]. split; [reflexivity|]. by vm_compute.
Qed.

(** A hit on the cached chunk, then the gateway is down. *)
Lemma gateway_failure_terminal_witness :
  (calls (RequestChunk slashJoin failing_manager no_faults (request "obj" 4097 2)
            short_chunk_world).2
   = calls short_chunk_world ++ [align failing_manager (request "obj" 4097 2)]
   ∧ is_Some (Error (downloadManager failing_manager (calls short_chunk_world)
                       (align failing_manager (request "obj" 4097 2)))))
  ∧ (RequestChunk slashJoin failing_manager no_faults (request "obj" 4097 2)
       short_chunk_world).1
    = Ok (align failing_manager (request "obj" 4097 2))
  ∧ length (filter (λ r, is_Some (Error r))
              (messages (chan (RequestChunk slashJoin failing_manager no_faults
                                 (request "obj" 4097 2) short_chunk_world).2)))
    = 1%nat
  ∧ contents (disk (RequestChunk slashJoin failing_manager no_faults
                      (request "obj" 4097 2) short_chunk_world).2)
    = contents (disk short_chunk_world).
Proof.
  assert (H1 : calls (RequestChunk slashJoin failing_manager no_faults
                        (request "obj" 4097 2) short_chunk_world).2
               = calls short_chunk_world
                 ++ [align failing_manager (request "obj" 4097 2)])
    by (vm_compute; reflexivity).
  assert (H2 : is_Some (Error (downloadManager failing_manager (calls short_chunk_world)
                                 (align failing_manager (request "obj" 4097 2)))))
    by (eexists; reflexivity).
  split; [exact (conj H1 H2)|].
  destruct (gateway_failure_terminal slashJoin failing_manager no_faults
              (request "obj" 4097 2) short_chunk_world _ H1 H2)
    as (Hout & _ & Hone & Hdisk).
  exact (conj Hout (conj Hone Hdisk)).
Defined.

(** Nothing cached and the gateway down: the open error stays inside, the
    gateway's error is the one message. *)
Lemma disk_failure_not_surfaced_witness :
  (ChunkSize failing_manager ≠ 0
   ∧ loadChunkFromDisk slashJoin failing_manager no_faults
       (align failing_manager (request "obj" 0 4)) (make_chan empty_world)
     = (Ok {| Error := Some (Errorf "Could not open file %v"
                               [ArgString "/chunks/obj/0"]);
              Bytes := [] |},
        make_chan empty_world)
   ∧ is_Some (Error {| Error := Some (Errorf "Could not open file %v"
                                        [ArgString "/chunks/obj/0"]);
                       Bytes := [] |}))
  ∧ calls (RequestChunk slashJoin failing_manager no_faults (request "obj" 0 4)
             empty_world).2
    = calls empty_world ++ [align failing_manager (request "obj" 0 4)]
  ∧ chan (RequestChunk slashJoin failing_manager no_faults (request "obj" 0 4)
            empty_world).2
    = [Send {| Error := Some (Errorf "download failed" []); Bytes := [] |}; Close].
Proof.
  assert (H1 : ChunkSize failing_manager ≠ 0) by discriminate.
  assert (H2 : loadChunkFromDisk slashJoin failing_manager no_faults
                 (align failing_manager (request "obj" 0 4)) (make_chan empty_world)
               = (Ok {| Error := Some (Errorf "Could not open file %v"
                                         [ArgString "/chunks/obj/0"]);
                        Bytes := [] |},
                  make_chan empty_world))
    by (vm_compute; reflexivity).
  assert (H3 : is_Some (Error {| Error := Some (Errorf "Could not open file %v"
                                                  [ArgString "/chunks/obj/0"]);
                                 Bytes := [] |}))
    by (eexists; reflexivity).
  split; [exact (conj H1 (conj H2 H3))|].
  destruct (disk_failure_not_surfaced slashJoin failing_manager no_faults
              (request "obj" 0 4) empty_world _ _ H1 H2 H3)
    as (Hcalls & Hchan & _).
  exact (conj Hcalls Hchan).
Defined.

(** A read at offset 3 of the cached chunk of three bytes: a miss, and the
    gateway's bytes are the one message. *)
Lemma read_past_end_is_miss_witness :
  (ChunkSize five_byte_manager ≠ 0
   ∧ 0 ≤ Offset (request "obj" 4099 2) ≤ max_int64
   ∧ 0 ≤ Size (request "obj" 4099 2) ≤ max_alloc
   ∧ Z.rem (Offset (request "obj" 4099 2)) (ChunkSize five_byte_manager)
     + Size (request "obj" 4099 2) ≤ max_int64
   ∧ chunk_file (disk short_chunk_world)
       (chunkDir slashJoin five_byte_manager
          (align five_byte_manager (request "obj" 4099 2)))
       (chunkName (align five_byte_manager (request "obj" 4099 2)))
     = Some {| data := [x01; x02; x03]; mtime := 0 |}
   ∧ len (data {| data := [x01; x02; x03]; mtime := 0 |})
     ≤ fOffset (align five_byte_manager (request "obj" 4099 2))
   ∧ len (Bytes (downloadManager five_byte_manager (calls short_chunk_world)
                   (align five_byte_manager (request "obj" 4099 2)))) ≤ 2 ^ 53)
  ∧ loadChunkFromDisk slashJoin five_byte_manager no_faults
      (align five_byte_manager (request "obj" 4099 2)) short_chunk_world
    = (Ok {| Error := Some (Errorf "Could not read file %s at %v"
                              [ArgString "/chunks/obj/4096"; ArgInt 3]);
             Bytes := [] |},
       short_chunk_world)
  ∧ chan (RequestChunk slashJoin five_byte_manager no_faults (request "obj" 4099 2)
            short_chunk_world).2
    = [Send {| Error := None; Bytes := [x03; x04] |}; Close].
Proof.
  assert (H1 : ChunkSize five_byte_manager ≠ 0) by discriminate.
  assert (H2 : 0 ≤ Offset (request "obj" 4099 2) ≤ max_int64) by sample_bounds.
  assert (H3 : 0 ≤ Size (request "obj" 4099 2) ≤ max_alloc) by sample_bounds.
  assert (H4 : Z.rem (Offset (request "obj" 4099 2)) (ChunkSize five_byte_manager)
               + Size (request "obj" 4099 2) ≤ max_int64) by sample_bounds.
  assert (H5 : chunk_file (disk short_chunk_world)
                 (chunkDir slashJoin five_byte_manager
                    (align five_byte_manager (request "obj" 4099 2)))
                 (chunkName (align five_byte_manager (request "obj" 4099 2)))
               = Some {| data := [x01; x02; x03]; mtime := 0 |})
    by (vm_compute; reflexivity).
  assert (H6 : len (data {| data := [x01; x02; x03]; mtime := 0 |})
               ≤ fOffset (align five_byte_manager (request "obj" 4099 2)))
    by sample_bounds.
  assert (H7 : len (Bytes (downloadManager five_byte_manager
                             (calls short_chunk_world)
                             (align five_byte_manager (request "obj" 4099 2))))
               ≤ 2 ^ 53) by sample_bounds.
  split; [exact (conj H1 (conj H2 (conj H3 (conj H4 (conj H5 (conj H6 H7))))))|].
  destruct (read_past_end_is_miss slashJoin five_byte_manager no_faults
              (request "obj" 4099 2) short_chunk_world _ H1 H2 H3 H4 H5 H6 (λ _, H7))
    as (_ & (e & Hload & He) & _ & _ & Hchan).
  split; [|exact Hchan].
  rewrite Hload, (He eq_refl). reflexivity.
Defined.

(** C9 as stated fails above the allocation limit: on the cached chunk of
    three bytes, a request at in-window offset 3 for [2 ^ 50] bytes panics
    when the read buffer is made, before the read: the lookup returns no
    miss, the gateway is not called and the channel is closed empty. *)
Lemma read_past_end_oversized_panics :
  0 < Size (request "obj" 4099 (2 ^ 50))
  ∧ chunk_file (disk short_chunk_world)
      (chunkDir slashJoin five_byte_manager
         (align five_byte_manager (request "obj" 4099 (2 ^ 50))))
      (chunkName (align five_byte_manager (request "obj" 4099 (2 ^ 50))))
    = Some {| data := [x01; x02; x03]; mtime := 0 |}
  ∧ len [x01; x02; x03]
    ≤ fOffset (align five_byte_manager (request "obj" 4099 (2 ^ 50)))
  ∧ loadChunkFromDisk slashJoin five_byte_manager no_faults
      (align five_byte_manager (request "obj" 4099 (2 ^ 50))) short_chunk_world
    = (Panic "makeslice: len out of range", short_chunk_world)
  ∧ (RequestChunk slashJoin five_byte_manager no_faults
       (request "obj" 4099 (2 ^ 50)) short_chunk_world).1
    = Panic "makeslice: len out of range"
  ∧ calls (RequestChunk slashJoin five_byte_manager no_faults
             (request "obj" 4099 (2 ^ 50)) short_chunk_world).2
    = calls short_chunk_world
  ∧ chan (RequestChunk slashJoin five_byte_manager no_faults
            (request "obj" 4099 (2 ^ 50)) short_chunk_world).2 = [Close].
Proof.
  split; [reflexivity|]. split; [by vm_compute|]. split; [sample_bounds|].
  by vm_compute.
Qed.

(** The same request twice on an empty cache: the first stores the five
    bytes of the gateway, the second leaves them. *)
Lemma storeChunkToDisk_write_once_witness :
  chunk_file (disk (RequestChunk slashJoin five_byte_manager no_faults
                      (request "obj" 0 3) empty_world).2)
    (chunkDir slashJoin five_byte_manager
       (align five_byte_manager (request "obj" 0 3)))
    (chunkName (align five_byte_manager (request "obj" 0 3)))
  = Some {| data := counting_bytes 5; mtime := 0 |}
  ∧ contents (disk (RequestChunk slashJoin five_byte_manager no_faults
                      (request "obj" 0 3)
                      (RequestChunk slashJoin five_byte_manager no_faults
                         (request "obj" 0 3) empty_world).2).2)
    = contents (disk (RequestChunk slashJoin five_byte_manager no_faults
                        (request "obj" 0 3) empty_world).2)
  ∧ calls (RequestChunk slashJoin five_byte_manager no_faults
             (request "obj" 0 3)
             (RequestChunk slashJoin five_byte_manager no_faults
                (request "obj" 0 3) empty_world).2).2
    = calls (RequestChunk slashJoin five_byte_manager no_faults
               (request "obj" 0 3) empty_world).2
      ++ [align five_byte_manager (request "obj" 0 3)].
Proof.
  assert (H1 : chunk_file (disk (RequestChunk slashJoin five_byte_manager no_faults
                                   (request "obj" 0 3) empty_world).2)
                 (chunkDir slashJoin five_byte_manager
                    (align five_byte_manager (request "obj" 0 3)))
                 (chunkName (align five_byte_manager (request "obj" 0 3)))
               = Some {| data := counting_bytes 5; mtime := 0 |})
    by (vm_compute; reflexivity).
  split; [exact H1|].
  destruct (storeChunkToDisk_write_once slashJoin five_byte_manager no_faults no_faults
              (request "obj" 0 3) {| Error := None; Bytes := [] |} empty_world _ H1)
    as (_ & Hkeep & _ & Hcalls & _).
  split; [exact Hkeep|]. apply Hcalls; [discriminate|sample_bounds].
Defined.

(** C6 as stated fails above the allocation limit: the same request for
    [2 ^ 50] bytes twice on an empty cache.  The first finds no file, calls
    the gateway and stores its five bytes; the second finds the file, panics
    when the read buffer is made and does not call the gateway.  The file is
    left as the first request wrote it. *)
Lemma second_request_oversized_skips_gateway :
  chunk_file (disk (RequestChunk slashJoin five_byte_manager no_faults
                      (request "obj" 0 (2 ^ 50)) empty_world).2)
    (chunkDir slashJoin five_byte_manager
       (align five_byte_manager (request "obj" 0 (2 ^ 50))))
    (chunkName (align five_byte_manager (request "obj" 0 (2 ^ 50))))
  = Some {| data := counting_bytes 5; mtime := 0 |}
  ∧ calls (RequestChunk slashJoin five_byte_manager no_faults
             (request "obj" 0 (2 ^ 50)) empty_world).2
    = [align five_byte_manager (request "obj" 0 (2 ^ 50))]
  ∧ (RequestChunk slashJoin five_byte_manager no_faults
       (request "obj" 0 (2 ^ 50))
       (RequestChunk slashJoin five_byte_manager no_faults
          (request "obj" 0 (2 ^ 50)) empty_world).2).1
    = Panic "makeslice: len out of range"
  ∧ calls (RequestChunk slashJoin five_byte_manager no_faults
             (request "obj" 0 (2 ^ 50))
             (RequestChunk slashJoin five_byte_manager no_faults
                (request "obj" 0 (2 ^ 50)) empty_world).2).2
    = calls (RequestChunk slashJoin five_byte_manager no_faults
               (request "obj" 0 (2 ^ 50)) empty_world).2
  ∧ disk (RequestChunk slashJoin five_byte_manager no_faults
            (request "obj" 0 (2 ^ 50))
            (RequestChunk slashJoin five_byte_manager no_faults
               (request "obj" 0 (2 ^ 50)) empty_world).2).2
    = disk (RequestChunk slashJoin five_byte_manager no_faults
              (request "obj" 0 (2 ^ 50)) empty_world).2.
Proof. by vm_compute. Qed.

(** C1: on a hit, [loadChunkFromDisk] returns [Size] bytes, not
    [min(Size, bytesRead)].  For the cached last chunk of three bytes and a
    request of five, the positioned read yields three bytes and [io.EOF], and
    the response holds five: the three and two zero bytes of padding.  The
    run sends that padded message first; the network path, on the same three
    bytes, sends the three. *)
Theorem loadChunkFromDisk_pads_short_read :
  (read_at no_faults [x01; x02; x03] (replicate 5 x00)
     (fOffset (align short_chunk_manager (request "obj" 4096 5)))).1
  = (3, Some EOF)
  ∧ (loadChunkFromDisk slashJoin short_chunk_manager no_faults
       (align short_chunk_manager (request "obj" 4096 5)) short_chunk_world).1
    = Ok {| Error := None; Bytes := [x01; x02; x03; x00; x00] |}
  ∧ len [x01; x02; x03; x00; x00]
    ≠ Z.min (Size (request "obj" 4096 5)) 3
  ∧ chan (RequestChunk slashJoin short_chunk_manager no_faults (request "obj" 4096 5)
            short_chunk_world).2
    = [Send {| Error := None; Bytes := [x01; x02; x03; x00; x00] |};
       Send {| Error := None; Bytes := [x01; x02; x03] |};
       Close].
Proof. by vm_compute. Qed.

(** ** The further properties on concrete inputs *)

(** Closed facts about the sample inputs, by evaluation. *)
Ltac sample_facts :=
  unfold in_range; repeat split; vm_compute; first [reflexivity | discriminate].

(** The cached short chunk read with a size of five. *)
Lemma disk_hit_response_witness :
  (chunk_file (disk short_chunk_world)
     (chunkDir slashJoin short_chunk_manager
        (align short_chunk_manager (request "obj" 4096 5)))
     (chunkName (align short_chunk_manager (request "obj" 4096 5)))
   = Some {| data := [x01; x02; x03]; mtime := 0 |}
   ∧ open_err no_faults = false ∧ read_err no_faults = None
   ∧ 0 ≤ fOffset (align short_chunk_manager (request "obj" 4096 5))
     < len (data {| data := [x01; x02; x03]; mtime := 0 |})
   ∧ 0 < Size (align short_chunk_manager (request "obj" 4096 5)) ≤ max_alloc)
  ∧ (loadChunkFromDisk slashJoin short_chunk_manager no_faults
       (align short_chunk_manager (request "obj" 4096 5)) short_chunk_world).1
    = Ok {| Error := None; Bytes := [x01; x02; x03; x00; x00] |}.
Proof.
  assert (H1 : chunk_file (disk short_chunk_world)
                 (chunkDir slashJoin short_chunk_manager
                    (align short_chunk_manager (request "obj" 4096 5)))
                 (chunkName (align short_chunk_manager (request "obj" 4096 5)))
               = Some {| data := [x01; x02; x03]; mtime := 0 |}) by sample_facts.
  assert (H2 : open_err no_faults = false) by reflexivity.
  assert (H3 : read_err no_faults = None) by reflexivity.
  assert (H4 : 0 ≤ fOffset (align short_chunk_manager (request "obj" 4096 5))
               < len (data {| data := [x01; x02; x03]; mtime := 0 |}))
    by sample_facts.
  assert (H5 : 0 < Size (align short_chunk_manager (request "obj" 4096 5)) ≤ max_alloc)
    by sample_facts.
  split; [exact (conj H1 (conj H2 (conj H3 (conj H4 H5))))|].
  destruct (disk_hit_response slashJoin short_chunk_manager no_faults
              (align short_chunk_manager (request "obj" 4096 5)) short_chunk_world
              _ H1 H2 H3 H4 H5) as (w' & Hload & _).
  rewrite Hload. reflexivity.
Defined.

(** The lookup on the cached short chunk returns. *)
Lemma disk_hit_iff_witness :
  (open_err no_faults = false ∧ read_err no_faults = None
   ∧ 0 ≤ Size (align short_chunk_manager (request "obj" 4097 2)) ≤ max_alloc)
  ∧ ∃ r w', loadChunkFromDisk slashJoin short_chunk_manager no_faults
              (align short_chunk_manager (request "obj" 4097 2)) short_chunk_world
            = (Ok r, w').
Proof.
  assert (H1 : open_err no_faults = false) by reflexivity.
  assert (H2 : read_err no_faults = None) by reflexivity.
  assert (H3 : 0 ≤ Size (align short_chunk_manager (request "obj" 4097 2)) ≤ max_alloc)
    by sample_facts.
  split; [exact (conj H1 (conj H2 H3))|].
  destruct (disk_hit_iff slashJoin short_chunk_manager no_faults
              (align short_chunk_manager (request "obj" 4097 2)) short_chunk_world
              H1 H2 H3) as (r & w' & Hload & _).
  exists r, w'. exact Hload.
Defined.

(** A read of the cached short chunk that breaks off after one byte. *)
Lemma read_failure_is_miss_witness :
  (chunk_file (disk short_chunk_world)
     (chunkDir slashJoin short_chunk_manager
        (align short_chunk_manager (request "obj" 4096 3)))
     (chunkName (align short_chunk_manager (request "obj" 4096 3)))
   = Some {| data := [x01; x02; x03]; mtime := 0 |}
   ∧ 0 ≤ Size (align short_chunk_manager (request "obj" 4096 3)) ≤ max_alloc
   ∧ read_err (read_fault_after 1) = Some 1
   ∧ 1 < Z.min (Size (align short_chunk_manager (request "obj" 4096 3)))
           (Z.max 0 (len (data {| data := [x01; x02; x03]; mtime := 0 |})
                     - fOffset (align short_chunk_manager (request "obj" 4096 3)))))
  ∧ ∃ e, loadChunkFromDisk slashJoin short_chunk_manager (read_fault_after 1)
           (align short_chunk_manager (request "obj" 4096 3)) short_chunk_world
         = (Ok {| Error := Some e; Bytes := [] |}, short_chunk_world).
Proof.
  assert (H1 : chunk_file (disk short_chunk_world)
                 (chunkDir slashJoin short_chunk_manager
                    (align short_chunk_manager (request "obj" 4096 3)))
                 (chunkName (align short_chunk_manager (request "obj" 4096 3)))
               = Some {| data := [x01; x02; x03]; mtime := 0 |}) by sample_facts.
  assert (H2 : 0 ≤ Size (align short_chunk_manager (request "obj" 4096 3)) ≤ max_alloc)
    by sample_facts.
  assert (H3 : read_err (read_fault_after 1) = Some 1) by reflexivity.
  assert (H4 : 1 < Z.min (Size (align short_chunk_manager (request "obj" 4096 3)))
                     (Z.max 0 (len (data {| data := [x01; x02; x03]; mtime := 0 |})
                               - fOffset (align short_chunk_manager
                                            (request "obj" 4096 3)))))
    by sample_facts.
  split; [exact (conj H1 (conj H2 (conj H3 H4)))|].
  exact (read_failure_is_miss slashJoin short_chunk_manager (read_fault_after 1)
           (align short_chunk_manager (request "obj" 4096 3)) short_chunk_world
           _ 1 H1 H2 H3 H4).
Defined.

(** On an empty cache the gateway is called. *)
Lemma gateway_called_once_witness :
  (ChunkSize five_byte_manager ≠ 0 ∧ 0 ≤ Size (request "obj" 1 3) ≤ max_alloc)
  ∧ calls (RequestChunk slashJoin five_byte_manager no_faults (request "obj" 1 3)
             empty_world).2
    = calls empty_world ++ [align five_byte_manager (request "obj" 1 3)].
Proof.
  assert (H1 : ChunkSize five_byte_manager ≠ 0) by discriminate.
  assert (H2 : 0 ≤ Size (request "obj" 1 3) ≤ max_alloc) by sample_facts.
  split; [exact (conj H1 H2)|].
  exact (proj2 (gateway_called_once slashJoin five_byte_manager no_faults
                  (request "obj" 1 3) empty_world) H1 (or_introl H2)).
Defined.

(** A request for the first chunk leaves the cached second chunk alone. *)
Lemma other_chunks_untouched_witness :
  ("/chunks/obj", "4096")
  ≠ (chunkDir slashJoin five_byte_manager (align five_byte_manager (request "obj" 1 3)),
     chunkName (align five_byte_manager (request "obj" 1 3)))
  ∧ chunk_file (disk (RequestChunk slashJoin five_byte_manager no_faults
                        (request "obj" 1 3) short_chunk_world).2)
      "/chunks/obj" "4096"
    = chunk_file (disk short_chunk_world) "/chunks/obj" "4096".
Proof.
  assert (H1 : ("/chunks/obj", "4096")
               ≠ (chunkDir slashJoin five_byte_manager
                    (align five_byte_manager (request "obj" 1 3)),
                  chunkName (align five_byte_manager (request "obj" 1 3))))
    by (intros H; vm_compute in H; discriminate H).
  split; [exact H1|].
  exact (other_chunks_untouched slashJoin five_byte_manager no_faults
           (request "obj" 1 3) short_chunk_world _ _ H1).
Defined.

(** Five bytes stored on an empty cache, three of them read back. *)
Lemma store_then_load_witness :
  (chunk_file (disk empty_world)
     (chunkDir slashJoin five_byte_manager
        (align five_byte_manager (request "obj" 1 3)))
     (chunkName (align five_byte_manager (request "obj" 1 3))) = None
   ∧ stat_dir_err no_faults = false ∧ mkdir_err no_faults = false
   ∧ stat_file_err no_faults = false ∧ write_err no_faults = None
   ∧ open_err no_faults = false ∧ read_err no_faults = None
   ∧ 0 ≤ fOffset (align five_byte_manager (request "obj" 1 3))
   ∧ 0 < Size (align five_byte_manager (request "obj" 1 3)) ≤ max_alloc
   ∧ fOffset (align five_byte_manager (request "obj" 1 3))
     + Size (align five_byte_manager (request "obj" 1 3))
     ≤ len (Bytes {| Error := None; Bytes := counting_bytes 5 |})
   ∧ len (Bytes {| Error := None; Bytes := counting_bytes 5 |}) ≤ 2 ^ 53)
  ∧ (loadChunkFromDisk slashJoin five_byte_manager no_faults
       (align five_byte_manager (request "obj" 1 3))
       (storeChunkToDisk slashJoin five_byte_manager no_faults
          (align five_byte_manager (request "obj" 1 3))
          {| Error := None; Bytes := counting_bytes 5 |} empty_world).2).1
    = Ok {| Error := None; Bytes := [x01; x02; x03] |}.
Proof.
  assert (H1 : chunk_file (disk empty_world)
                 (chunkDir slashJoin five_byte_manager
                    (align five_byte_manager (request "obj" 1 3)))
                 (chunkName (align five_byte_manager (request "obj" 1 3))) = None)
    by sample_facts.
  assert (H2 : stat_dir_err no_faults = false) by reflexivity.
  assert (H3 : mkdir_err no_faults = false) by reflexivity.
  assert (H4 : stat_file_err no_faults = false) by reflexivity.
  assert (H5 : write_err no_faults = None) by reflexivity.
  assert (H6 : open_err no_faults = false) by reflexivity.
  assert (H7 : read_err no_faults = None) by reflexivity.
  assert (H8 : 0 ≤ fOffset (align five_byte_manager (request "obj" 1 3)))
    by sample_facts.
  assert (H9 : 0 < Size (align five_byte_manager (request "obj" 1 3)) ≤ max_alloc)
    by sample_facts.
  assert (H10 : fOffset (align five_byte_manager (request "obj" 1 3))
                + Size (align five_byte_manager (request "obj" 1 3))
                ≤ len (Bytes {| Error := None; Bytes := counting_bytes 5 |}))
    by sample_facts.
  assert (H11 : len (Bytes {| Error := None; Bytes := counting_bytes 5 |}) ≤ 2 ^ 53)
    by sample_facts.
  split; [exact (conj H1 (conj H2 (conj H3 (conj H4 (conj H5 (conj H6 (conj H7
                  (conj H8 (conj H9 (conj H10 H11))))))))))|].
  exact (store_then_load slashJoin five_byte_manager no_faults no_faults
           (align five_byte_manager (request "obj" 1 3))
           {| Error := None; Bytes := counting_bytes 5 |} empty_world
           H1 H2 H3 H4 H5 H6 H7 H8 H9 H10 H11).
Defined.

(** The first fetch on an empty cache stores the five bytes of the gateway. *)
Lemma first_fetch_is_cached_witness :
  (ChunkSize five_byte_manager ≠ 0
   ∧ 0 ≤ Offset (request "obj" 1 3) ≤ max_int64 ∧ 0 ≤ Size (request "obj" 1 3)
   ∧ Z.rem (Offset (request "obj" 1 3)) (ChunkSize five_byte_manager)
     + Size (request "obj" 1 3) ≤ max_int64
   ∧ chunk_file (disk empty_world)
       (chunkDir slashJoin five_byte_manager
          (align five_byte_manager (request "obj" 1 3)))
       (chunkName (align five_byte_manager (request "obj" 1 3))) = None
   ∧ Error (downloadManager five_byte_manager (calls empty_world)
              (align five_byte_manager (request "obj" 1 3))) = None
   ∧ len (Bytes (downloadManager five_byte_manager (calls empty_world)
                   (align five_byte_manager (request "obj" 1 3)))) ≤ 2 ^ 53)
  ∧ chunk_file (disk (RequestChunk slashJoin five_byte_manager no_faults
                        (request "obj" 1 3) empty_world).2)
      (chunkDir slashJoin five_byte_manager
         (align five_byte_manager (request "obj" 1 3)))
      (chunkName (align five_byte_manager (request "obj" 1 3)))
    = Some {| data := counting_bytes 5; mtime := 0 |}.
Proof.
  assert (H1 : ChunkSize five_byte_manager ≠ 0) by discriminate.
  assert (H2 : 0 ≤ Offset (request "obj" 1 3) ≤ max_int64) by sample_facts.
  assert (H3 : 0 ≤ Size (request "obj" 1 3)) by sample_facts.
  assert (H4 : Z.rem (Offset (request "obj" 1 3)) (ChunkSize five_byte_manager)
               + Size (request "obj" 1 3) ≤ max_int64) by sample_facts.
  assert (H5 : chunk_file (disk empty_world)
                 (chunkDir slashJoin five_byte_manager
                    (align five_byte_manager (request "obj" 1 3)))
                 (chunkName (align five_byte_manager (request "obj" 1 3))) = None)
    by sample_facts.
  assert (H6 : Error (downloadManager five_byte_manager (calls empty_world)
                        (align five_byte_manager (request "obj" 1 3))) = None)
    by reflexivity.
  assert (H7 : len (Bytes (downloadManager five_byte_manager (calls empty_world)
                             (align five_byte_manager (request "obj" 1 3))))
               ≤ 2 ^ 53) by sample_facts.
  split; [exact (conj H1 (conj H2 (conj H3 (conj H4 (conj H5 (conj H6 H7))))))|].
  exact (proj2 (first_fetch_is_cached slashJoin five_byte_manager no_faults
                  (request "obj" 1 3) empty_world H1 H2 H3 H4 H5 H6 H7
                  eq_refl eq_refl eq_refl eq_refl)).
Defined.

(** The same request twice on an empty cache: bytes 1 to 3 once, then twice. *)
Lemma second_request_hits_witness :
  (ChunkSize five_byte_manager ≠ 0
   ∧ 0 ≤ Offset (request "obj" 1 3) ≤ max_int64
   ∧ 0 < Size (request "obj" 1 3) ≤ max_alloc
   ∧ Z.rem (Offset (request "obj" 1 3)) (ChunkSize five_byte_manager)
     + Size (request "obj" 1 3) ≤ len (counting_bytes 5)
   ∧ len (counting_bytes 5) ≤ 2 ^ 53
   ∧ chunk_file (disk empty_world)
       (chunkDir slashJoin five_byte_manager
          (align five_byte_manager (request "obj" 1 3)))
       (chunkName (align five_byte_manager (request "obj" 1 3))) = None)
  ∧ chan (RequestChunk slashJoin five_byte_manager no_faults (request "obj" 1 3)
            empty_world).2
    = [Send {| Error := None; Bytes := [x01; x02; x03] |}; Close]
  ∧ chan (RequestChunk slashJoin five_byte_manager no_faults (request "obj" 1 3)
            (RequestChunk slashJoin five_byte_manager no_faults (request "obj" 1 3)
               empty_world).2).2
    = [Send {| Error := None; Bytes := [x01; x02; x03] |};
       Send {| Error := None; Bytes := [x01; x02; x03] |}; Close].
Proof.
  assert (H1 : ChunkSize five_byte_manager ≠ 0) by discriminate.
  assert (H2 : 0 ≤ Offset (request "obj" 1 3) ≤ max_int64) by sample_facts.
  assert (H3 : 0 < Size (request "obj" 1 3) ≤ max_alloc) by sample_facts.
  assert (H4 : Z.rem (Offset (request "obj" 1 3)) (ChunkSize five_byte_manager)
               + Size (request "obj" 1 3) ≤ len (counting_bytes 5)) by sample_facts.
  assert (H5 : len (counting_bytes 5) ≤ 2 ^ 53) by sample_facts.
  assert (H6 : chunk_file (disk empty_world)
                 (chunkDir slashJoin five_byte_manager
                    (align five_byte_manager (request "obj" 1 3)))
                 (chunkName (align five_byte_manager (request "obj" 1 3))) = None)
    by sample_facts.
  split; [exact (conj H1 (conj H2 (conj H3 (conj H4 (conj H5 H6)))))|].
  exact (second_request_hits slashJoin five_byte_manager no_faults no_faults
           (request "obj" 1 3) empty_world (counting_bytes 5)
           H1 H2 H3 H4 H5 H6 eq_refl eq_refl
           eq_refl eq_refl eq_refl eq_refl eq_refl eq_refl).
Defined.

(** A request for zero bytes on the cached short chunk. *)
Lemma zero_size_request_witness :
  (ChunkSize short_chunk_manager ≠ 0
   ∧ 0 ≤ Offset (request "obj" 4096 0) ≤ max_int64
   ∧ Size (request "obj" 4096 0) = 0
   ∧ Error (downloadManager short_chunk_manager (calls short_chunk_world)
              (align short_chunk_manager (request "obj" 4096 0))) = None
   ∧ len (Bytes (downloadManager short_chunk_manager (calls short_chunk_world)
                   (align short_chunk_manager (request "obj" 4096 0)))) ≤ 2 ^ 53)
  ∧ chan (RequestChunk slashJoin short_chunk_manager no_faults (request "obj" 4096 0)
            short_chunk_world).2
    = [Send {| Error := None; Bytes := [] |}; Close].
Proof.
  assert (H1 : ChunkSize short_chunk_manager ≠ 0) by discriminate.
  assert (H2 : 0 ≤ Offset (request "obj" 4096 0) ≤ max_int64) by sample_facts.
  assert (H3 : Size (request "obj" 4096 0) = 0) by reflexivity.
  assert (H4 : Error (downloadManager short_chunk_manager (calls short_chunk_world)
                        (align short_chunk_manager (request "obj" 4096 0))) = None)
    by reflexivity.
  assert (H5 : len (Bytes (downloadManager short_chunk_manager
                             (calls short_chunk_world)
                             (align short_chunk_manager (request "obj" 4096 0))))
               ≤ 2 ^ 53) by sample_facts.
  split; [exact (conj H1 (conj H2 (conj H3 (conj H4 H5))))|].
  exact (proj2 (proj2 (zero_size_request slashJoin short_chunk_manager no_faults
                         (request "obj" 4096 0) short_chunk_world H1 H2 H3 H4 H5))).
Defined.

(** A request at offset -1: the gateway succeeds and nothing is sent. *)
Lemma negative_offset_no_bytes_witness :
  (ChunkSize five_byte_manager ≠ 0
   ∧ Z.rem (Offset (request "obj" (-1) 3)) (ChunkSize five_byte_manager) < 0
   ∧ Error (downloadManager five_byte_manager (calls empty_world)
              (align five_byte_manager (request "obj" (-1) 3))) = None)
  ∧ chan (RequestChunk slashJoin five_byte_manager no_faults (request "obj" (-1) 3)
            empty_world).2 = [Close].
Proof.
  assert (H1 : ChunkSize five_byte_manager ≠ 0) by discriminate.
  assert (H2 : Z.rem (Offset (request "obj" (-1) 3)) (ChunkSize five_byte_manager) < 0)
    by reflexivity.
  assert (H3 : Error (downloadManager five_byte_manager (calls empty_world)
                        (align five_byte_manager (request "obj" (-1) 3))) = None)
    by reflexivity.
  split; [exact (conj H1 (conj H2 H3))|].
  exact (proj1 (proj2 (negative_offset_no_bytes slashJoin five_byte_manager no_faults
                         (request "obj" (-1) 3) empty_world H1 H2) H3)).
Defined.

(** Offsets 4096 and 8191 share a chunk file, with chunks of 4096 bytes. *)
Lemma chunk_name_identifies_window_witness :
  (0 < ChunkSize failing_manager
   ∧ 0 ≤ Offset (request "obj" 4096 1) ≤ max_int64
   ∧ 0 ≤ Offset (request "obj" 8191 1) ≤ max_int64)
  ∧ chunkName (align failing_manager (request "obj" 4096 1))
    = chunkName (align failing_manager (request "obj" 8191 1)).
Proof.
  assert (H1 : 0 < ChunkSize failing_manager) by reflexivity.
  assert (H2 : 0 ≤ Offset (request "obj" 4096 1) ≤ max_int64) by sample_facts.
  assert (H3 : 0 ≤ Offset (request "obj" 8191 1) ≤ max_int64) by sample_facts.
  split; [exact (conj H1 (conj H2 H3))|].
  exact (proj2 (chunk_name_identifies_window failing_manager (request "obj" 4096 1)
                  (request "obj" 8191 1) H1 H2 H3) eq_refl).
Defined.

(** With every write failing, the channel is as with none failing. *)
Lemma cache_write_faults_invisible_witness :
  (open_err no_faults = open_err failing_writes
   ∧ read_err no_faults = read_err failing_writes)
  ∧ chan (RequestChunk slashJoin five_byte_manager no_faults (request "obj" 1 3)
            empty_world).2
    = chan (RequestChunk slashJoin five_byte_manager failing_writes
              (request "obj" 1 3) empty_world).2.
Proof.
  assert (H1 : open_err no_faults = open_err failing_writes) by reflexivity.
  assert (H2 : read_err no_faults = read_err failing_writes) by reflexivity.
  split; [exact (conj H1 H2)|].
  exact (proj1 (proj2 (cache_write_faults_invisible slashJoin five_byte_manager
                         no_faults failing_writes (request "obj" 1 3) empty_world
                         H1 H2))).
Defined.

(** A request whose fields a run has written gives the same run again. *)
Lemma derived_fields_ignored_witness :
  (Object (align five_byte_manager (request "obj" 1 3)) = Object (request "obj" 1 3)
   ∧ Offset (align five_byte_manager (request "obj" 1 3)) = Offset (request "obj" 1 3)
   ∧ Size (align five_byte_manager (request "obj" 1 3)) = Size (request "obj" 1 3)
   ∧ Preload (align five_byte_manager (request "obj" 1 3))
     = Preload (request "obj" 1 3))
  ∧ RequestChunk slashJoin five_byte_manager no_faults
      (align five_byte_manager (request "obj" 1 3)) empty_world
    = RequestChunk slashJoin five_byte_manager no_faults (request "obj" 1 3)
        empty_world.
Proof.
  split; [exact (conj eq_refl (conj eq_refl (conj eq_refl eq_refl)))|].
  exact (proj1 (proj2 (proj2 (derived_fields_ignored slashJoin five_byte_manager
                                no_faults (request "obj" 1 3)
                                (align five_byte_manager (request "obj" 1 3))
                                empty_world eq_refl eq_refl eq_refl eq_refl)))).
Defined.

(** A size of -1 on the cached short chunk. *)
Lemma negative_size_panics_on_hit_witness :
  (ChunkSize short_chunk_manager ≠ 0 ∧ Size (request "obj" 4096 (-1)) < 0
   ∧ open_err no_faults = false
   ∧ chunk_file (disk short_chunk_world)
       (chunkDir slashJoin short_chunk_manager
          (align short_chunk_manager (request "obj" 4096 (-1))))
       (chunkName (align short_chunk_manager (request "obj" 4096 (-1))))
     = Some {| data := [x01; x02; x03]; mtime := 0 |})
  ∧ RequestChunk slashJoin short_chunk_manager no_faults (request "obj" 4096 (-1))
      short_chunk_world
    = (Panic "makeslice: len out of range", close (make_chan short_chunk_world)).
Proof.
  assert (H1 : ChunkSize short_chunk_manager ≠ 0) by discriminate.
  assert (H2 : Size (request "obj" 4096 (-1)) < 0) by reflexivity.
  assert (H3 : open_err no_faults = false) by reflexivity.
  assert (H4 : chunk_file (disk short_chunk_world)
                 (chunkDir slashJoin short_chunk_manager
                    (align short_chunk_manager (request "obj" 4096 (-1))))
                 (chunkName (align short_chunk_manager (request "obj" 4096 (-1))))
               = Some {| data := [x01; x02; x03]; mtime := 0 |}) by sample_facts.
  split; [exact (conj H1 (conj H2 (conj H3 H4)))|].
  exact (negative_size_panics_on_hit slashJoin short_chunk_manager no_faults
           (request "obj" 4096 (-1)) short_chunk_world _ H1 H2 H3 H4).
Defined.
